(** * MyMongodb: a thin accessor over a document-database client

    Shallow embedding of [MyMongodb.py].  The class wraps one pymongo
    collection and offers construction, insertion with deduplication,
    find with pagination, delete and update, logging each outcome.

    The Python methods are written as computations in a small state and
    exception monad over a [world] that holds the database server, the
    cursor objects the driver handed out, the driver calls issued so far
    and the calls made to [logging].

    The driver and the server are not part of the class; they are modelled
    in [Pymongo] and [Query] as far as the class uses them: collections are
    lists of records in natural order, field values are integers and text,
    filters use the six comparison operators, and a cursor is an object that
    is read once.  [sort_data] hands the ordering to the server and is not
    embedded. *)

From Stdlib Require Import ZArith Ascii.
From stdpp Require Import gmap strings list fin_maps.

Local Open Scope string_scope.
Local Open Scope Z_scope.
Local Open Scope list_scope.

(** * The deduplication helper

    [remove_duplicates] is a static method over any list: it only uses
    [==] on the elements (through [not in]).  It is embedded over any type
    with a decidable equality, which is what [==] is on records made of
    text and integer fields. *)

Section Dedup.
Context {A : Type} `{EqDecision A}.

(** One round of the loop body: [if i not in res: res.append(i)]. *)
Definition dedup_step (res : list A) (i : A) : list A :=
  if decide (i ∈ res) then res else res ++ [i].

(** [res = []; for i in ori_data: ...; return res] *)
Definition remove_duplicates (ori_data : list A) : list A :=
  foldl dedup_step [] ori_data.

(** The specification's wording, to compare with the loop: the records
    kept are those standing at a position of first occurrence, that is a
    position [i] whose record does not occur among the [i] records before
    it, and they are kept in the order of these positions. *)
Definition first_occurrence_at (l : list A) (i : nat) : option A :=
  match l !! i with
  | Some x => if decide (x ∈ take i l) then None else Some x
  | None => None
  end.

Definition first_occurrences (l : list A) : list A :=
  omap (first_occurrence_at l) (seq 0 (length l)).

Lemma remove_duplicates_snoc l x :
  remove_duplicates (l ++ [x]) = dedup_step (remove_duplicates l) x.
Proof. unfold remove_duplicates. by rewrite foldl_app. Qed.

Lemma remove_duplicates_elem_of l x :
  x ∈ remove_duplicates l ↔ x ∈ l.
Proof.
  induction l as [|y l IH] using rev_ind.
  - done.
  - rewrite remove_duplicates_snoc. unfold dedup_step.
    case_decide as Hy; rewrite !elem_of_app, ?list_elem_of_singleton.
    + split; [tauto|]. intros [?| ->]; [tauto|]. done.
    + tauto.
Qed.

Lemma remove_duplicates_NoDup l : NoDup (remove_duplicates l).
Proof.
  induction l as [|y l IH] using rev_ind.
  - constructor.
  - rewrite remove_duplicates_snoc. unfold dedup_step.
    case_decide as Hy; [done|].
    apply NoDup_app. split_and!; [done| |apply NoDup_singleton].
    intros z Hz ->%list_elem_of_singleton. done.
Qed.

Lemma remove_duplicates_length l :
  (length (remove_duplicates l) ≤ length l)%nat.
Proof.
  induction l as [|y l IH] using rev_ind.
  - done.
  - rewrite remove_duplicates_snoc. unfold dedup_step.
    case_decide; rewrite ?length_app; simpl; lia.
Qed.

Lemma remove_duplicates_sublist l : sublist (remove_duplicates l) l.
Proof.
  induction l as [|y l IH] using rev_ind.
  - done.
  - rewrite remove_duplicates_snoc. unfold dedup_step. case_decide.
    + by apply sublist_inserts_r.
    + by apply sublist_app.
Qed.

Lemma first_occurrence_at_snoc_lt l x i :
  (i < length l)%nat →
  first_occurrence_at (l ++ [x]) i = first_occurrence_at l i.
Proof.
  intros Hi. unfold first_occurrence_at.
  rewrite lookup_app_l by done. rewrite take_app_le by lia. done.
Qed.

Lemma first_occurrence_at_snoc_last l x :
  first_occurrence_at (l ++ [x]) (length l) =
  if decide (x ∈ l) then None else Some x.
Proof.
  unfold first_occurrence_at.
  rewrite list_lookup_middle by done.
  rewrite take_app_length. done.
Qed.

Lemma omap_ext_elem_of {B} (f g : B → option A) (l : list B) :
  (∀ b, b ∈ l → f b = g b) → omap f l = omap g l.
Proof.
  intros Hfg. apply list_omap_ext, Forall2_same_length_lookup.
  split; [done|]. intros i b b' Hb Hb'. simplify_eq.
  apply Hfg. by eapply list_elem_of_lookup_2.
Qed.

Lemma first_occurrences_snoc l x :
  first_occurrences (l ++ [x]) =
  first_occurrences l ++ (if decide (x ∈ l) then [] else [x]).
Proof.
  unfold first_occurrences.
  rewrite length_app, Nat.add_1_r, seq_S, omap_app. simpl.
  rewrite first_occurrence_at_snoc_last. f_equal.
  - apply omap_ext_elem_of. intros i Hi%elem_of_seq.
    apply first_occurrence_at_snoc_lt. lia.
  - by case_decide.
Qed.

Lemma remove_duplicates_first_occurrences l :
  remove_duplicates l = first_occurrences l.
Proof.
  induction l as [|y l IH] using rev_ind.
  - done.
  - rewrite remove_duplicates_snoc, first_occurrences_snoc, <- IH.
    unfold dedup_step.
    pose proof (remove_duplicates_elem_of l y) as Hiff.
    destruct (decide (y ∈ remove_duplicates l)) as [Hy|Hy];
      destruct (decide (y ∈ l)) as [Hl|Hl]; try tauto.
    by rewrite app_nil_r.
Qed.
End Dedup.

(** C1. For every input list, possibly empty and possibly with duplicates,
    [remove_duplicates] returns a list without duplicates that has exactly
    the records of the input, keeps the first occurrence of each in the
    original relative order, and is no longer than the input. *)
Theorem remove_duplicates_spec {A : Type} `{EqDecision A} (l : list A) :
  NoDup (remove_duplicates l) ∧
  (∀ x, x ∈ remove_duplicates l ↔ x ∈ l) ∧
  remove_duplicates l = first_occurrences l ∧
  sublist (remove_duplicates l) l ∧
  (length (remove_duplicates l) ≤ length l)%nat.
Proof.
  split_and!.
  - apply remove_duplicates_NoDup.
  - apply remove_duplicates_elem_of.
  - apply remove_duplicates_first_occurrences.
  - apply remove_duplicates_sublist.
  - apply remove_duplicates_length.
Qed.

(** * Python values used by the accessor *)

Module Py.

(** Truthiness of an optional text argument ([str = None] parameters):
    [None] and the empty text are falsy. *)
Definition truthy (s : option string) : bool :=
  match s with
  | None => false
  | Some s => negb (String.eqb s "")
  end.

(** Exceptions the accessor and the driver raise. *)
Inductive exn : Type :=
| KeyError
| IndexError
| TypeError
| ValueError
| InvalidName
| InvalidOperation
| OperationFailure
| WriteError.

#[global] Instance exn_eq_dec : EqDecision exn.
Proof. solve_decision. Defined.

(** Result of running a piece of Python: a value or a raised exception. *)
Inductive outcome (A : Type) : Type :=
| Returned (a : A)
| Raised (e : exn).
#[global] Arguments Returned {A} a.
#[global] Arguments Raised {A} e.

End Py.
Export Py.

(** * Records, filters and updates

    A record is a Python [dict] from field names to values.  The values of
    this development are integers and text; on such records Python's [==]
    is equality of the mappings. *)

Inductive value : Type :=
| VInt (n : Z)
| VStr (s : string).

#[global] Instance value_eq_dec : EqDecision value.
Proof. solve_decision. Defined.

Abbreviation document := (gmap string value).

(** The right-hand side of a field in a filter: a plain value
    ([{key: value}]) or a nested mapping ([{key: {operator: value}}]).
    The nested mapping keeps the order of its keys, since the server reads
    it as an operator expression exactly when its first key starts with a
    dollar sign. *)
Inductive cond : Type :=
| CValue (v : value)
| CDoc (entries : list (string * value)).

#[global] Instance cond_eq_dec : EqDecision cond.
Proof. solve_decision. Defined.

Definition filter_doc : Type := list (string * cond).

(** An update document ([{'$set': {...}}], [{'$inc': {...}}], ...) is
    represented by what it does to one record; [None] when the server
    refuses to apply it to that record (such as [$inc] on a text field). *)
Definition update_doc : Type := document → option document.

Module Query.

Definition is_operator (k : string) : bool :=
  match k with
  | String "$" _ => true
  | _ => false
  end.

Fixpoint has_char (c : ascii) (s : string) : bool :=
  match s with
  | EmptyString => false
  | String c' s' => Ascii.eqb c c' || has_char c s'
  end.

(** The comparison operators listed in [find_data]'s docstring.  Other
    operator tokens are outside this model of the server, which rejects
    them the way a server rejects an operator it does not know. *)
Definition supported_operators : list string :=
  ["$eq"; "$ne"; "$lt"; "$gt"; "$lte"; "$gte"].

Definition supported (op : string) : bool :=
  bool_decide (op ∈ supported_operators).

(** Values are ordered within their own type only. *)
Definition compare_values (a b : value) : option comparison :=
  match a, b with
  | VInt x, VInt y => Some (x ?= y)
  | VStr x, VStr y => Some (String.compare x y)
  | _, _ => None
  end.

Definition ordered_as (ok : comparison → bool) (fld : option value) (arg : value) : bool :=
  match fld with
  | Some v =>
      match compare_values v arg with
      | Some c => ok c
      | None => false
      end
  | None => false
  end.

Definition operator_holds (op : string) (arg : value) (fld : option value) : bool :=
  if String.eqb op "$eq" then bool_decide (fld = Some arg)
  else if String.eqb op "$ne" then negb (bool_decide (fld = Some arg))
  else if String.eqb op "$lt" then
    ordered_as (λ c, match c with Lt => true | _ => false end) fld arg
  else if String.eqb op "$gt" then
    ordered_as (λ c, match c with Gt => true | _ => false end) fld arg
  else if String.eqb op "$lte" then
    ordered_as (λ c, match c with Gt => false | _ => true end) fld arg
  else if String.eqb op "$gte" then
    ordered_as (λ c, match c with Lt => false | _ => true end) fld arg
  else false.

(** Does the server accept the condition? *)
Definition cond_ok (c : cond) : bool :=
  match c with
  | CValue _ => true
  | CDoc [] => true
  | CDoc (((k, _) :: _) as entries) =>
      if is_operator k then forallb (λ e, supported e.1) entries else true
  end.

(** A nested mapping whose first key is not an operator asks for a field
    equal to that mapping; no integer or text field is. *)
Definition cond_holds (c : cond) (fld : option value) : bool :=
  match c with
  | CValue v => bool_decide (fld = Some v)
  | CDoc [] => false
  | CDoc (((k, _) :: _) as entries) =>
      is_operator k && forallb (λ e, operator_holds e.1 e.2 fld) entries
  end.

(** A dotted key is a path into nested records, of which a record with
    integer and text fields has none. *)
Definition field (k : string) (d : document) : option value :=
  if has_char "." k then None else d !! k.

(** Top-level keys starting with a dollar sign are server operators, not
    field names; they are outside the model as well. *)
Definition filter_ok (f : filter_doc) : bool :=
  forallb (λ e, negb (is_operator e.1) && cond_ok e.2) f.

Definition matches (f : filter_doc) (d : document) : bool :=
  forallb (λ e, cond_holds e.2 (field e.1 d)) f.

End Query.

(** * The [logging] module

    A call to [logging.info], [logging.warning] or [logging.error] is kept
    as it is made.  The line it prints is computed by [render]: a template
    with arguments is merged with [%]; when that merge fails, [logging]
    reports the failure on its own error stream and prints no line (and
    raises nothing to the caller). *)

Module Logging.

Inductive level : Type := INFO | WARNING | ERROR.

#[global] Instance level_eq_dec : EqDecision level.
Proof. solve_decision. Defined.

Inductive arg : Type :=
| AInt (n : Z)
| AStr (s : string)
| ADocs (l : list document).

(** Printed text: literal characters and the text of values. *)
Inductive piece : Type :=
| Text (s : string)
| Shown (a : arg).

Inductive message : Type :=
| Template (fmt : string) (args : list arg)
| Built (parts : list piece).

Record call : Type := Call { call_level : level; call_message : message }.

#[global] Instance arg_eq_dec : EqDecision arg.
Proof. solve_decision. Defined.
#[global] Instance piece_eq_dec : EqDecision piece.
Proof. solve_decision. Defined.
#[global] Instance message_eq_dec : EqDecision message.
Proof. solve_decision. Defined.
#[global] Instance call_eq_dec : EqDecision call.
Proof. solve_decision. Defined.

Definition push (c : ascii) (ps : list piece) : list piece :=
  match ps with
  | Text s :: ps' => Text (String c s) :: ps'
  | _ => Text (String c EmptyString) :: ps
  end.

(** [fmt % args] for the conversions [%s], [%d] and [%%]: [%d] wants an
    integer, every conversion uses up one argument, and no argument may
    be left over. *)
Fixpoint percent_format (fmt : string) (args : list arg) : option (list piece) :=
  match fmt with
  | EmptyString =>
      match args with
      | [] => Some []
      | _ :: _ => None
      end
  | String "%" EmptyString => None
  | String "%" (String c rest) =>
      if Ascii.eqb c "%" then push "%" <$> percent_format rest args
      else if Ascii.eqb c "d" then
        match args with
        | AInt n :: args' => cons (Shown (AInt n)) <$> percent_format rest args'
        | _ => None
        end
      else if Ascii.eqb c "s" then
        match args with
        | a :: args' => cons (Shown a) <$> percent_format rest args'
        | [] => None
        end
      else None
  | String c rest => push c <$> percent_format rest args
  end.

(** [LogRecord.getMessage]: the template is merged only when there are
    arguments. *)
Definition render (m : message) : option (list piece) :=
  match m with
  | Built parts => Some parts
  | Template fmt [] => Some [Text fmt]
  | Template fmt args => percent_format fmt args
  end.

(** The lines that reach the log stream, in order. *)
Definition emitted (l : list call) : list (level * list piece) :=
  omap (λ c, pair (call_level c) <$> render (call_message c)) l.

End Logging.

(** * The driver and the server *)

Record client_obj : Type := Client { client_host : string; client_port : Z }.
Record database_obj : Type := Database { db_name : string }.
Record collection_obj : Type := Collection { coll_db : string; coll_name : string }.

(** A cursor object: the query it stands for and, once the query has been
    sent, the records still to be handed out. *)
Record cursor_obj : Type := Cursor {
  cur_coll : collection_obj;
  cur_filter : filter_doc;
  cur_limit : Z;
  cur_skip : Z;
  cur_buffer : option (list document)
}.

Record update_result : Type :=
  UpdateResult { matched_count : Z; modified_count : Z }.
Record delete_result : Type := DeleteResult { deleted_count : Z }.

(** Driver methods called by the accessor, with their arguments.  Cursor
    objects are named by their position in the world's list of cursors. *)
Inductive driver_call : Type :=
| CallMongoClient (host : string) (port : Z)
| CallListDatabaseNames
| CallGetDatabase (name : string)
| CallListCollectionNames (db : database_obj)
| CallGetCollection (db : database_obj) (name : string)
| CallInsertOne (coll : collection_obj) (d : document)
| CallInsertMany (coll : collection_obj) (ds : list document) (ordered : bool)
| CallFind (coll : collection_obj) (f : filter_doc)
| CallLimit (cur : nat) (n : Z)
| CallSkip (cur : nat) (n : Z)
| CallList (cur : nat)
| CallNext (cur : nat)
| CallClone (cur : nat)
| CallDeleteMany (coll : collection_obj) (f : filter_doc)
| CallDeleteOne (coll : collection_obj) (f : filter_doc)
| CallUpdateMany (coll : collection_obj) (f : filter_doc) (u : update_doc)
| CallUpdateOne (coll : collection_obj) (f : filter_doc) (u : update_doc).

Record world : Type := World {
  server : gmap string (gmap string (list document));
  cursors : list cursor_obj;
  calls : list driver_call;
  log : list Logging.call
}.

(** Computations: state passing over the world, with exceptions. *)
Definition py (A : Type) : Type := world → outcome A * world.

#[global] Instance py_ret : MRet py := λ A a w, (Returned a, w).
#[global] Instance py_bind : MBind py := λ A B f m w,
  match m w with
  | (Returned a, w') => f a w'
  | (Raised e, w') => (Raised e, w')
  end.

Definition raise {A : Type} (e : exn) : py A := λ w, (Raised e, w).
Definition get_world : py world := λ w, (Returned w, w).
Definition modify_world (f : world → world) : py unit := λ w, (Returned (), f w).

Definition set_server (s : gmap string (gmap string (list document))) (w : world) : world :=
  World s (cursors w) (calls w) (log w).
Definition set_cursors (cs : list cursor_obj) (w : world) : world :=
  World (server w) cs (calls w) (log w).
Definition add_call (c : driver_call) (w : world) : world :=
  World (server w) (cursors w) (calls w ++ [c]) (log w).
Definition add_log (c : Logging.call) (w : world) : world :=
  World (server w) (cursors w) (calls w) (log w ++ [c]).

(** The records of a collection in natural order; a database or a
    collection that does not exist yet has none. *)
Definition docs_of (coll : collection_obj) (w : world) : list document :=
  default [] (server w !! coll_db coll ≫= λ db, db !! coll_name coll).

(** Writing to a collection creates it, and its database, when needed. *)
Definition set_docs (coll : collection_obj) (ds : list document) (w : world) : world :=
  set_server
    (<[coll_db coll := <[coll_name coll := ds]> (default ∅ (server w !! coll_db coll))]>
       (server w)) w.

Definition logging_info (fmt : string) (args : list Logging.arg) : py unit :=
  modify_world (add_log (Logging.Call Logging.INFO (Logging.Template fmt args))).
Definition logging_warning (fmt : string) (args : list Logging.arg) : py unit :=
  modify_world (add_log (Logging.Call Logging.WARNING (Logging.Template fmt args))).
Definition logging_error (fmt : string) (args : list Logging.arg) : py unit :=
  modify_world (add_log (Logging.Call Logging.ERROR (Logging.Template fmt args))).
(** [logging.info(f"...")]: the text is built before the call. *)
Definition logging_info_built (parts : list Logging.piece) : py unit :=
  modify_world (add_log (Logging.Call Logging.INFO (Logging.Built parts))).

(** The driver, as far as the accessor uses it.  Connecting is taken to
    succeed, and the [_id] field that the driver adds to inserted records is
    left out. *)
Module Pymongo.

(** [MongoClient.HOST] and [MongoClient.PORT], the class defaults. *)
Definition HOST : string := "localhost".
Definition PORT : Z := 27017.

Definition issue (c : driver_call) : py unit := modify_world (add_call c).

Definition MongoClient (host : string) (port : Z) : py client_obj :=
  issue (CallMongoClient host port);;
  mret (Client host port).

Definition list_database_names (cl : client_obj) : py (list string) :=
  issue CallListDatabaseNames;;
  w ← get_world;
  mret ((map_to_list (server w)).*1).

(** Characters a database name must not contain. *)
Definition invalid_db_chars : list ascii :=
  [" "; "."; "$"; "/"; "\"; "000"; "034"]%char.

Definition valid_database_name (name : string) : bool :=
  negb (String.eqb name "") &&
  negb (existsb (λ c, Query.has_char c name) invalid_db_chars).

Definition get_database (cl : client_obj) (name : string) : py database_obj :=
  issue (CallGetDatabase name);;
  if valid_database_name name
  then mret (Database name)
  else raise InvalidName.

Definition list_collection_names (db : database_obj) : py (list string) :=
  issue (CallListCollectionNames db);;
  w ← get_world;
  mret ((map_to_list (default ∅ (server w !! db_name db))).*1).

Fixpoint has_substring (p s : string) : bool :=
  String.prefix p s ||
  match s with
  | EmptyString => false
  | String _ s' => has_substring p s'
  end.

Fixpoint last_char (s : string) : option ascii :=
  match s with
  | EmptyString => None
  | String c EmptyString => Some c
  | String _ s' => last_char s'
  end.

Definition valid_collection_name (name : string) : bool :=
  negb (String.eqb name "") && negb (has_substring ".." name) &&
  (negb (Query.has_char "$" name) ||
   String.prefix "oplog.$main" name || String.prefix "$cmd" name) &&
  negb (String.prefix "." name) &&
  negb (bool_decide (last_char name = Some "."%char)) &&
  negb (Query.has_char "000" name).

Definition get_collection (db : database_obj) (name : string) : py collection_obj :=
  issue (CallGetCollection db name);;
  if valid_collection_name name
  then mret (Collection (db_name db) name)
  else raise InvalidName.

(** Inserted records go to the end of the collection. *)
Definition insert_one (coll : collection_obj) (d : document) : py unit :=
  issue (CallInsertOne coll d);;
  modify_world (λ w, set_docs coll (docs_of coll w ++ [d]) w).

(** [insert_many] refuses an empty batch before anything is sent. *)
Definition insert_many (coll : collection_obj) (ds : list document) (ordered : bool) : py unit :=
  issue (CallInsertMany coll ds ordered);;
  match ds with
  | [] => raise TypeError
  | _ :: _ => modify_world (λ w, set_docs coll (docs_of coll w ++ ds) w)
  end.

(** ** Cursors *)

(** What the server answers to a query: the matching records in natural
    order, without the first [skip] of them, then cut to at most [limit]
    of them.  A limit of 0 is no limit and a negative limit counts as its
    absolute value. *)
Definition window (limit skip : Z) (ds : list document) : list document :=
  let ds := drop (Z.to_nat skip) ds in
  if limit =? 0 then ds else take (Z.to_nat (Z.abs limit)) ds.

Definition answer (c : cursor_obj) (w : world) : list document :=
  window (cur_limit c) (cur_skip c)
    (List.filter (Query.matches (cur_filter c)) (docs_of (cur_coll c) w)).

Definition set_buffer (b : option (list document)) (c : cursor_obj) : cursor_obj :=
  Cursor (cur_coll c) (cur_filter c) (cur_limit c) (cur_skip c) b.

(** The object behind a reference.  References come from [find] and
    [clone] only, so the object is always there. *)
Definition deref (cur : nat) : py cursor_obj :=
  w ← get_world;
  match cursors w !! cur with
  | Some c => mret c
  | None => raise InvalidOperation
  end.

Definition assign (cur : nat) (c : cursor_obj) : py unit :=
  modify_world (λ w, set_cursors (<[cur := c]> (cursors w)) w).

Definition allocate (c : cursor_obj) : py nat :=
  w ← get_world;
  modify_world (set_cursors (cursors w ++ [c]));;
  mret (length (cursors w)).

(** [find] builds a cursor and sends nothing yet; the default cursor has
    no limit and skips nothing. *)
Definition find (coll : collection_obj) (f : filter_doc) : py nat :=
  issue (CallFind coll f);;
  allocate (Cursor coll f 0 0 None).

(** [limit] and [skip] set an option of the cursor and return the cursor
    itself; they are refused once the query has been sent. *)
Definition limit (cur : nat) (n : Z) : py nat :=
  issue (CallLimit cur n);;
  c ← deref cur;
  match cur_buffer c with
  | Some _ => raise InvalidOperation
  | None =>
      assign cur (Cursor (cur_coll c) (cur_filter c) n (cur_skip c) None);;
      mret cur
  end.

Definition skip (cur : nat) (n : Z) : py nat :=
  issue (CallSkip cur n);;
  if n <? 0 then raise ValueError
  else
    c ← deref cur;
    match cur_buffer c with
    | Some _ => raise InvalidOperation
    | None =>
        assign cur (Cursor (cur_coll c) (cur_filter c) (cur_limit c) n None);;
        mret cur
    end.

(** The records the cursor has still to hand out.  On first use the query
    is sent and answered from the collection as it is then; a filter the
    server does not accept fails here. *)
Definition pending (cur : nat) : py (list document) :=
  c ← deref cur;
  match cur_buffer c with
  | Some rest => mret rest
  | None =>
      if Query.filter_ok (cur_filter c) then
        w ← get_world;
        mret (answer c w)
      else
        assign cur (set_buffer (Some []) c);;
        raise OperationFailure
  end.

(** [next(cursor)]: the next record, or [None] at the end
    ([StopIteration]).  A record handed out is gone from the cursor. *)
Definition next (cur : nat) : py (option document) :=
  issue (CallNext cur);;
  rest ← pending cur;
  c ← deref cur;
  match rest with
  | [] => assign cur (set_buffer (Some []) c);; mret None
  | d :: rest' => assign cur (set_buffer (Some rest') c);; mret (Some d)
  end.

(** [list(cursor)]: everything the cursor has still to hand out; the
    cursor is left at its end. *)
Definition list_ (cur : nat) : py (list document) :=
  issue (CallList cur);;
  rest ← pending cur;
  c ← deref cur;
  assign cur (set_buffer (Some []) c);;
  mret rest.

(** [cursor.clone()]: a new cursor for the same query, not sent yet. *)
Definition clone (cur : nat) : py nat :=
  issue (CallClone cur);;
  c ← deref cur;
  allocate (set_buffer None c).

(** ** Deleting and updating *)

(** A collection is rewritten only when its records change, so that
    deleting from or updating a collection that does not exist does not
    create it. *)
Definition replaced (coll : collection_obj) (ds : list document) (w : world) : world :=
  if decide (ds = docs_of coll w) then w else set_docs coll ds w.

Definition replace_docs (coll : collection_obj) (ds : list document) : py unit :=
  modify_world (replaced coll ds).

Fixpoint remove_first (p : document → bool) (ds : list document) : list document :=
  match ds with
  | [] => []
  | d :: ds' => if p d then ds' else d :: remove_first p ds'
  end.

Definition count_removed (before after : list document) : Z :=
  Z.of_nat (length before) - Z.of_nat (length after).

Definition delete_many (coll : collection_obj) (f : filter_doc) : py delete_result :=
  issue (CallDeleteMany coll f);;
  if Query.filter_ok f then
    w ← get_world;
    let kept := List.filter (λ d, negb (Query.matches f d)) (docs_of coll w) in
    replace_docs coll kept;;
    mret (DeleteResult (count_removed (docs_of coll w) kept))
  else raise OperationFailure.

Definition delete_one (coll : collection_obj) (f : filter_doc) : py delete_result :=
  issue (CallDeleteOne coll f);;
  if Query.filter_ok f then
    w ← get_world;
    let kept := remove_first (Query.matches f) (docs_of coll w) in
    replace_docs coll kept;;
    mret (DeleteResult (count_removed (docs_of coll w) kept))
  else raise OperationFailure.

Definition changed (d d' : document) : Z := if decide (d = d') then 0 else 1.

(** The first matching record is updated.  The result is the new list of
    records with the counts, or nothing when the server refuses the
    update on that record. *)
Fixpoint update_first (p : document → bool) (u : update_doc) (ds : list document)
  : option (list document * update_result) :=
  match ds with
  | [] => Some ([], UpdateResult 0 0)
  | d :: ds' =>
      if p d then
        match u d with
        | Some d' => Some (d' :: ds', UpdateResult 1 (changed d d'))
        | None => None
        end
      else
        match update_first p u ds' with
        | Some (r, res) => Some (d :: r, res)
        | None => None
        end
  end.

(** Every matching record is updated, in natural order.  A bulk update is
    not atomic: when the server refuses the update on one record, the
    records updated before it stay updated and the others are left as
    they were. *)
Fixpoint update_each (p : document → bool) (u : update_doc) (ds : list document)
  : list document * option update_result :=
  match ds with
  | [] => ([], Some (UpdateResult 0 0))
  | d :: ds' =>
      if p d then
        match u d with
        | Some d' =>
            let (r, res) := update_each p u ds' in
            (d' :: r,
             (λ c, UpdateResult (matched_count c + 1) (modified_count c + changed d d')) <$> res)
        | None => (d :: ds', None)
        end
      else
        let (r, res) := update_each p u ds' in (d :: r, res)
  end.

Definition update_many (coll : collection_obj) (f : filter_doc) (u : update_doc)
  : py update_result :=
  issue (CallUpdateMany coll f u);;
  if Query.filter_ok f then
    w ← get_world;
    let (ds, res) := update_each (Query.matches f) u (docs_of coll w) in
    replace_docs coll ds;;
    match res with
    | Some r => mret r
    | None => raise WriteError
    end
  else raise OperationFailure.

Definition update_one (coll : collection_obj) (f : filter_doc) (u : update_doc)
  : py update_result :=
  issue (CallUpdateOne coll f u);;
  if Query.filter_ok f then
    w ← get_world;
    match update_first (Query.matches f) u (docs_of coll w) with
    | Some (ds, r) => replace_docs coll ds;; mret r
    | None => raise WriteError
    end
  else raise OperationFailure.

End Pymongo.

(** * The accessor class *)

Module MyMongodb.
Import Logging.

(** Instance state: [self.client], [self.db], [self.collection]. *)
Record instance : Type := Self {
  client : client_obj;
  db : database_obj;
  collection : collection_obj
}.

Definition newline : string := String "010" EmptyString.

Definition database_warning : string :=
  "Database %s not exists in the client. " +:+ newline +:+
  "Before filled with data, it will not be saved in the client.".

Definition collection_warning : string :=
  "Collection %s not exists in the database. " +:+ newline +:+
  "Before filled with data, it will not be saved in the database.".

(** [MyMongodb(host, port, database, collection)] *)
Definition __init__ (host : string) (port : Z) (database collection : option string)
  : py instance :=
  client ← Pymongo.MongoClient host port;
  logging_info "Successfully connected the client on %s:%d"
    [AStr Pymongo.HOST; AInt Pymongo.PORT];;
  if negb (Py.truthy database) || negb (Py.truthy collection) then
    logging_error "Not find dataset name or collection name inputted" [];;
    raise KeyError
  else
    (* both names are text from here on *)
    let database := default "" database in
    let collection := default "" collection in
    names ← Pymongo.list_database_names client;
    (if bool_decide (database ∉ names)
     then logging_warning database_warning [AStr database]
     else mret ());;
    db ← Pymongo.get_database client database;
    logging_info "Successfully connected to dataset %s" [AStr database];;
    names ← Pymongo.list_collection_names db;
    (if bool_decide (collection ∈ names)
     then logging_warning collection_warning [AStr collection]
     else mret ());;
    coll ← Pymongo.get_collection db collection;
    logging_info "Successfully connected to collection %s" [AStr collection];;
    mret (Self client db coll).

(** [insert(self, insert_data, ordered=False)] *)
Definition insert (self : instance) (insert_data : list document) (ordered : bool)
  : py unit :=
  let insert_data := remove_duplicates insert_data in
  (if bool_decide (length insert_data = 1%nat) then
     match insert_data !! 0%nat with
     | Some d => Pymongo.insert_one (collection self) d
     | None => raise IndexError
     end
   else Pymongo.insert_many (collection self) insert_data ordered);;
  logging_info_built
    [Text "Successfully inserted "; Shown (ADocs insert_data);
     Text " into collection "; Shown (AStr (coll_name (collection self)))].

Definition default_limit_num : Z := 99999.
Definition default_skip_num : Z := 0.

(** [find_data(self, key, value, optional=None, limit_num=99999, skip_num=0)] *)
Definition find_data (self : instance) (key : string) (value : value)
    (optional : option string) (limit_num skip_num : Z) : py (nat * nat) :=
  results ← (if negb (Py.truthy optional) then
               c ← Pymongo.find (collection self) [(key, CValue value)];
               c ← Pymongo.limit c limit_num;
               Pymongo.skip c skip_num
             else
               c ← Pymongo.find (collection self)
                     [(key, CDoc [(default "" optional, value)])];
               c ← Pymongo.limit c limit_num;
               Pymongo.skip c skip_num);
  listed ← Pymongo.list_ results;
  mret (results, length listed).

(** [delete(self, filter, impact_data='all')] *)
Definition delete (self : instance) (filter : filter_doc) (impact_data : string)
  : py unit :=
  results ← (if String.eqb impact_data "all" then
               r ← Pymongo.delete_many (collection self) filter; mret (Some r)
             else if String.eqb impact_data "single" then
               r ← Pymongo.delete_one (collection self) filter; mret (Some r)
             else
               logging_error
                 "The field parameter 'impact_data' is incorrect, please reselect. Failed to delete"
                 [];;
               mret None);
  match results with
  | Some results =>
      logging_info "Successfully matched and deleted %d data."
        [AInt (deleted_count results)]
  | None => mret ()
  end.

(** [update(self, filter, update, impact_data='all')] *)
Definition update (self : instance) (filter : filter_doc) (update : update_doc)
    (impact_data : string) : py unit :=
  results ← (if String.eqb impact_data "all" then
               r ← Pymongo.update_many (collection self) filter update; mret (Some r)
             else if String.eqb impact_data "single" then
               r ← Pymongo.update_one (collection self) filter update; mret (Some r)
             else
               logging_error
                 "The field parameter 'impact_data' is incorrect, please reselect. Failed to update"
                 [];;
               mret None);
  match results with
  | Some results =>
      logging_info "Successfully matched %d data and updated %d data."
        [AInt (matched_count results)]
  | None => mret ()
  end.

End MyMongodb.

(** * Running the code *)

Ltac py_run :=
  cbv beta iota delta [mbind py_bind mret py_ret raise get_world modify_world
    logging_info logging_warning logging_error logging_info_built
    Pymongo.issue add_log add_call set_cursors set_server];
  cbn [server cursors calls log fst snd].

(** The records of the script at the end of the source file. *)
Definition student1 : document :=
  {[ "id" := VStr "20170102"; "name" := VStr "John";
     "age" := VInt 21; "gender" := VStr "male" ]}.
Definition student2 : document :=
  {[ "id" := VStr "20170103"; "name" := VStr "Sally";
     "age" := VInt 19; "gender" := VStr "female" ]}.

(** A server without any database, and nothing done yet. *)
Definition fresh_world : world := World ∅ [] [] [].

(** The accessor of the script: database [local], collection [students]. *)
Definition students : collection_obj := Collection "local" "students".
Definition mydb : MyMongodb.instance :=
  MyMongodb.Self (Client "localhost" 27017) (Database "local") students.

(** * Construction *)

Definition connected_call : Logging.call :=
  Logging.Call Logging.INFO
    (Logging.Template "Successfully connected the client on %s:%d"
       [Logging.AStr Pymongo.HOST; Logging.AInt Pymongo.PORT]).

Definition missing_name_call : Logging.call :=
  Logging.Call Logging.ERROR
    (Logging.Template "Not find dataset name or collection name inputted" []).

Definition collection_warning_call (name : string) : Logging.call :=
  Logging.Call Logging.WARNING
    (Logging.Template MyMongodb.collection_warning [Logging.AStr name]).

Definition database_warning_call (name : string) : Logging.call :=
  Logging.Call Logging.WARNING
    (Logging.Template MyMongodb.database_warning [Logging.AStr name]).

Lemma truthy_false s : Py.truthy s = false ↔ s = None ∨ s = Some "".
Proof.
  destruct s as [s|]; simpl.
  - rewrite negb_false_iff, String.eqb_eq. split.
    + intros ->. by right.
    + intros [?|?]; congruence.
  - split; [by left|done].
Qed.

Lemma truthy_true s : Py.truthy s = true ↔ ∃ t, s = Some t ∧ t ≠ "".
Proof.
  destruct s as [s|]; simpl.
  - rewrite negb_true_iff, String.eqb_neq. split.
    + intros ?. by exists s.
    + intros (t & ? & ?). congruence.
  - split; [done|]. intros (t & ? & ?). done.
Qed.

Lemma init_missing_name host port database collection w :
  Py.truthy database = false ∨ Py.truthy collection = false →
  MyMongodb.__init__ host port database collection w =
    (Raised KeyError,
     World (server w) (cursors w) (calls w ++ [CallMongoClient host port])
       (log w ++ [connected_call; missing_name_call])).
Proof.
  intros H. unfold MyMongodb.__init__.
  assert (negb (Py.truthy database) || negb (Py.truthy collection) = true) as ->.
  { destruct H as [-> | ->]; simpl; [done|]. by rewrite orb_true_r. }
  unfold Pymongo.MongoClient. py_run. by rewrite <- app_assoc.
Qed.

(** What construction returns once both names are given: the driver has
    the last word on the names. *)
Definition init_outcome (host : string) (port : Z) (d c : string)
  : outcome MyMongodb.instance :=
  if Pymongo.valid_database_name d then
    if Pymongo.valid_collection_name c then
      Returned (MyMongodb.Self (Client host port) (Database d) (Collection d c))
    else Raised InvalidName
  else Raised InvalidName.

Lemma init_given_names host port d c w :
  d ≠ "" → c ≠ "" →
  (MyMongodb.__init__ host port (Some d) (Some c) w).1 = init_outcome host port d c ∧
  missing_name_call ∉
    drop (length (log w)) (log (MyMongodb.__init__ host port (Some d) (Some c) w).2).
Proof.
  intros Hd Hc. unfold MyMongodb.__init__, init_outcome.
  assert (Py.truthy (Some d) = true) as -> by (apply truthy_true; eauto).
  assert (Py.truthy (Some c) = true) as -> by (apply truthy_true; eauto).
  unfold Pymongo.MongoClient, Pymongo.list_database_names, Pymongo.get_database,
    Pymongo.list_collection_names, Pymongo.get_collection.
  cbn [negb orb]. cbv zeta.
  change (default "" (Some d)) with d. change (default "" (Some c)) with c.
  py_run.
  repeat (match goal with
          | |- context [bool_decide ?P] => destruct (bool_decide P)
          | |- context [if Pymongo.valid_database_name d then _ else _] =>
              destruct (Pymongo.valid_database_name d)
          | |- context [if Pymongo.valid_collection_name c then _ else _] =>
              destruct (Pymongo.valid_collection_name c)
          end; py_run);
    (split; [done|]);
    rewrite <- ?app_assoc, drop_app_length; cbn;
    rewrite ?elem_of_cons, elem_of_nil; unfold missing_name_call;
    intuition discriminate.
Qed.

(** C9. Construction raises [KeyError], the error the specification calls
    ConfigurationError, whenever the database name or the collection name is
    missing or empty: the error line is logged after the line about the
    connection, and no accessor is returned.  When both names are given and
    not empty, construction does not raise that error and logs no such line;
    whether it returns the accessor is then up to the driver's own check of
    the names. *)
Theorem init_name_validation host port database collection w :
  (database = None ∨ database = Some "" ∨ collection = None ∨ collection = Some "" →
   MyMongodb.__init__ host port database collection w =
     (Raised KeyError,
      World (server w) (cursors w) (calls w ++ [CallMongoClient host port])
        (log w ++ [connected_call; missing_name_call])) ∧
   Logging.emitted [missing_name_call] =
     [(Logging.ERROR,
       [Logging.Text "Not find dataset name or collection name inputted"])]) ∧
  (∀ d c, database = Some d → collection = Some c → d ≠ "" → c ≠ "" →
   (MyMongodb.__init__ host port database collection w).1 ≠ Raised KeyError ∧
   (MyMongodb.__init__ host port database collection w).1 = init_outcome host port d c ∧
   missing_name_call ∉
     drop (length (log w)) (log (MyMongodb.__init__ host port database collection w).2)).
Proof.
  split.
  - intros H. split; [|done]. apply init_missing_name.
    rewrite !truthy_false. tauto.
  - intros d c -> -> Hd Hc.
    destruct (init_given_names host port d c w Hd Hc) as [Hout Hlog].
    split_and!; [|done|done].
    rewrite Hout. unfold init_outcome.
    destruct (Pymongo.valid_database_name d); [|done].
    by destruct (Pymongo.valid_collection_name c).
Qed.

Lemma init_name_validation_witness :
  MyMongodb.__init__ "localhost" 27017 None (Some "students") fresh_world =
    (Raised KeyError,
     World ∅ [] [CallMongoClient "localhost" 27017]
       [connected_call; missing_name_call]) ∧
  (MyMongodb.__init__ "localhost" 27017 (Some "local") (Some "students") fresh_world).1 =
    Returned mydb.
Proof.
  split.
  - apply (init_name_validation "localhost" 27017 None (Some "students") fresh_world).
    by left.
  - destruct (init_name_validation "localhost" 27017 (Some "local") (Some "students")
                fresh_world) as [_ H].
    destruct (H "local" "students") as (_ & -> & _); done.
Defined.

(** A server on which the collection of the script exists already. *)
Definition enrolled_world : world :=
  World {[ "local" := {[ "students" := [student1] ]} ]} [] [] [].

(** The warning about the collection is logged exactly when the collection
    is in the list of the database's collections. *)
Lemma init_collection_warning_iff host port d c w :
  d ≠ "" → c ≠ "" →
  collection_warning_call c ∈
    drop (length (log w)) (log (MyMongodb.__init__ host port (Some d) (Some c) w).2) ↔
  Pymongo.valid_database_name d = true ∧
  c ∈ (map_to_list (default ∅ (server w !! d))).*1.
Proof.
  intros Hd Hc. unfold MyMongodb.__init__.
  assert (Py.truthy (Some d) = true) as -> by (apply truthy_true; eauto).
  assert (Py.truthy (Some c) = true) as -> by (apply truthy_true; eauto).
  unfold Pymongo.MongoClient, Pymongo.list_database_names, Pymongo.get_database,
    Pymongo.list_collection_names, Pymongo.get_collection.
  cbn [negb orb]. cbv zeta.
  change (default "" (Some d)) with d. change (default "" (Some c)) with c.
  py_run.
  repeat (match goal with
          | |- context [bool_decide ?P] => destruct (bool_decide_reflect P)
          | |- context [if Pymongo.valid_database_name d then _ else _] =>
              destruct (Pymongo.valid_database_name d)
          | |- context [if Pymongo.valid_collection_name c then _ else _] =>
              destruct (Pymongo.valid_collection_name c)
          end; py_run);
    cbn [db_name] in *;
    rewrite <- ?app_assoc, drop_app_length; cbn;
    rewrite ?elem_of_cons, elem_of_nil;
    unfold collection_warning_call, MyMongodb.database_warning;
    intuition (try discriminate; try done).
Qed.

(** C7. The check of the collection is the wrong way round.  Constructing
    the accessor for a collection that exists logs the warning that it does
    not exist, and constructing it for a collection that is absent logs no
    warning about the collection.  The check of the database, just before,
    is the right way round: no warning for a database that exists, a warning
    for one that is absent. *)
Theorem init_collection_warning_inverted :
  let construct := MyMongodb.__init__ "localhost" 27017 (Some "local") (Some "students") in
  collection_warning_call "students" ∈ log (construct enrolled_world).2 ∧
  ¬ collection_warning_call "students" ∈ log (construct fresh_world).2 ∧
  ¬ database_warning_call "local" ∈ log (construct enrolled_world).2 ∧
  database_warning_call "local" ∈ log (construct fresh_world).2.
Proof.
  split_and!; refine (bool_decide_unpack _ _); by vm_compute.
Qed.

(** * Insertion *)

Lemma docs_of_set_docs coll ds w : docs_of coll (set_docs coll ds w) = ds.
Proof.
  unfold docs_of, set_docs, set_server. cbn [server].
  rewrite lookup_insert_eq. cbn. by rewrite lookup_insert_eq.
Qed.

(** The driver call [insert] makes for the records left after
    deduplication. *)
Definition insert_call (coll : collection_obj) (data : list document) (ordered : bool)
  : driver_call :=
  match data with
  | [d] => CallInsertOne coll d
  | _ => CallInsertMany coll data ordered
  end.

Definition inserted_call (coll : collection_obj) (data : list document) : Logging.call :=
  Logging.Call Logging.INFO
    (Logging.Built
       [Logging.Text "Successfully inserted "; Logging.Shown (Logging.ADocs data);
        Logging.Text " into collection "; Logging.Shown (Logging.AStr (coll_name coll))]).

Lemma insert_run self insert_data ordered w :
  MyMongodb.insert self insert_data ordered w =
  match remove_duplicates insert_data with
  | [] =>
      (Raised TypeError,
       add_call (CallInsertMany (MyMongodb.collection self) [] ordered) w)
  | data =>
      (Returned (),
       add_log (inserted_call (MyMongodb.collection self) data)
         (set_docs (MyMongodb.collection self)
            (docs_of (MyMongodb.collection self) w ++ data)
            (add_call (insert_call (MyMongodb.collection self) data ordered) w)))
  end.
Proof.
  unfold MyMongodb.insert. cbv zeta.
  destruct (remove_duplicates insert_data) as [|d [|d' data]]; cbn [length lookup];
    unfold Pymongo.insert_many, Pymongo.insert_one; by py_run.
Qed.

(** C4. [insert] deduplicates its input before it calls the driver, and
    makes one driver call: a single-record insert of the record when exactly
    one record is left, otherwise a multi-record insert of the records left,
    in their order of first occurrence, with the [ordered] flag handed on.
    When records are left, they are appended to the collection in that
    order and the success line is logged. *)
Theorem insert_dedup_then_call self insert_data ordered w :
  calls (MyMongodb.insert self insert_data ordered w).2 =
    calls w ++
    [insert_call (MyMongodb.collection self) (remove_duplicates insert_data) ordered] ∧
  (∀ d, remove_duplicates insert_data = [d] →
     insert_call (MyMongodb.collection self) (remove_duplicates insert_data) ordered =
       CallInsertOne (MyMongodb.collection self) d) ∧
  (length (remove_duplicates insert_data) ≠ 1%nat →
     insert_call (MyMongodb.collection self) (remove_duplicates insert_data) ordered =
       CallInsertMany (MyMongodb.collection self) (remove_duplicates insert_data) ordered) ∧
  remove_duplicates insert_data = first_occurrences insert_data ∧
  (remove_duplicates insert_data ≠ [] →
     (MyMongodb.insert self insert_data ordered w).1 = Returned () ∧
     docs_of (MyMongodb.collection self) (MyMongodb.insert self insert_data ordered w).2 =
       docs_of (MyMongodb.collection self) w ++ remove_duplicates insert_data ∧
     log (MyMongodb.insert self insert_data ordered w).2 =
       log w ++ [inserted_call (MyMongodb.collection self) (remove_duplicates insert_data)]).
Proof.
  rewrite insert_run. split_and!.
  - by destruct (remove_duplicates insert_data) as [|d [|d' data]].
  - by intros d ->.
  - by destruct (remove_duplicates insert_data) as [|d [|d' data]].
  - apply remove_duplicates_first_occurrences.
  - intros Hne. destruct (remove_duplicates insert_data) as [|d data]; [done|].
    split_and!; [done| |done].
    unfold add_log, docs_of. cbn [server fst snd].
    apply docs_of_set_docs.
Qed.

Lemma insert_dedup_then_call_witness :
  calls (MyMongodb.insert mydb [student1; student2; student1] false fresh_world).2 =
    [CallInsertMany students [student1; student2] false] ∧
  calls (MyMongodb.insert mydb [student1; student1] true fresh_world).2 =
    [CallInsertOne students student1] ∧
  docs_of students (MyMongodb.insert mydb [student1; student2; student1] false fresh_world).2 =
    [student1; student2].
Proof.
  split_and!.
  - by destruct (insert_dedup_then_call mydb [student1; student2; student1] false
                   fresh_world) as (-> & _).
  - by destruct (insert_dedup_then_call mydb [student1; student1] true
                   fresh_world) as (-> & _).
  - destruct (insert_dedup_then_call mydb [student1; student2; student1] false
                fresh_world) as (_ & _ & _ & _ & H).
    destruct H as (_ & H & _); [by vm_compute|exact H].
Defined.

(** C10. Nothing checks that the input of [insert] is not empty.  For the
    empty list, deduplication leaves no record, the length is not 1, and the
    multi-record insert is called with an empty batch; the driver refuses it
    with an error, which ends [insert]: nothing is stored and no success
    line is logged. *)
Theorem insert_empty self ordered w :
  remove_duplicates ([] : list document) = [] ∧
  MyMongodb.insert self [] ordered w =
    (Raised TypeError,
     World (server w) (cursors w)
       (calls w ++ [CallInsertMany (MyMongodb.collection self) [] ordered]) (log w)).
Proof. split; [done|]. by rewrite insert_run. Qed.

(** * Deleting and updating *)

Definition delete_scope_error : Logging.call :=
  Logging.Call Logging.ERROR
    (Logging.Template
       "The field parameter 'impact_data' is incorrect, please reselect. Failed to delete" []).

Definition update_scope_error : Logging.call :=
  Logging.Call Logging.ERROR
    (Logging.Template
       "The field parameter 'impact_data' is incorrect, please reselect. Failed to update" []).

Definition deleted_call (n : Z) : Logging.call :=
  Logging.Call Logging.INFO
    (Logging.Template "Successfully matched and deleted %d data." [Logging.AInt n]).

(** The call [update] makes to [logging.info]: two conversions in the
    template, one argument. *)
Definition updated_call (matched : Z) : Logging.call :=
  Logging.Call Logging.INFO
    (Logging.Template "Successfully matched %d data and updated %d data."
       [Logging.AInt matched]).

Lemma docs_of_replaced coll ds w : docs_of coll (Pymongo.replaced coll ds w) = ds.
Proof.
  unfold Pymongo.replaced. case_decide; [done|]. apply docs_of_set_docs.
Qed.

Lemma delete_run self f impact w :
  MyMongodb.delete self f impact w =
  let coll := MyMongodb.collection self in
  if String.eqb impact "all" then
    if Query.filter_ok f then
      let kept := List.filter (λ d, negb (Query.matches f d)) (docs_of coll w) in
      (Returned (),
       add_log (deleted_call (Pymongo.count_removed (docs_of coll w) kept))
         (Pymongo.replaced coll kept (add_call (CallDeleteMany coll f) w)))
    else (Raised OperationFailure, add_call (CallDeleteMany coll f) w)
  else if String.eqb impact "single" then
    if Query.filter_ok f then
      let kept := Pymongo.remove_first (Query.matches f) (docs_of coll w) in
      (Returned (),
       add_log (deleted_call (Pymongo.count_removed (docs_of coll w) kept))
         (Pymongo.replaced coll kept (add_call (CallDeleteOne coll f) w)))
    else (Raised OperationFailure, add_call (CallDeleteOne coll f) w)
  else (Returned (), add_log delete_scope_error w).
Proof.
  unfold MyMongodb.delete. cbv zeta.
  destruct (String.eqb impact "all"); [|destruct (String.eqb impact "single")];
    unfold Pymongo.delete_many, Pymongo.delete_one, Pymongo.replace_docs;
    try destruct (Query.filter_ok f); by py_run.
Qed.

Lemma update_run self f u impact w :
  MyMongodb.update self f u impact w =
  let coll := MyMongodb.collection self in
  if String.eqb impact "all" then
    if Query.filter_ok f then
      let w1 := add_call (CallUpdateMany coll f u) w in
      match Pymongo.update_each (Query.matches f) u (docs_of coll w) with
      | (ds, Some r) =>
          (Returned (),
           add_log (updated_call (matched_count r)) (Pymongo.replaced coll ds w1))
      | (ds, None) => (Raised WriteError, Pymongo.replaced coll ds w1)
      end
    else (Raised OperationFailure, add_call (CallUpdateMany coll f u) w)
  else if String.eqb impact "single" then
    if Query.filter_ok f then
      let w1 := add_call (CallUpdateOne coll f u) w in
      match Pymongo.update_first (Query.matches f) u (docs_of coll w) with
      | Some (ds, r) =>
          (Returned (),
           add_log (updated_call (matched_count r)) (Pymongo.replaced coll ds w1))
      | None => (Raised WriteError, w1)
      end
    else (Raised OperationFailure, add_call (CallUpdateOne coll f u) w)
  else (Returned (), add_log update_scope_error w).
Proof.
  unfold MyMongodb.update. cbv zeta.
  destruct (String.eqb impact "all"); [|destruct (String.eqb impact "single")];
    unfold Pymongo.update_many, Pymongo.update_one, Pymongo.replace_docs;
    try destruct (Query.filter_ok f); py_run; try done.
  - change (docs_of (MyMongodb.collection self) (World _ _ _ _))
      with (docs_of (MyMongodb.collection self) w).
    destruct (Pymongo.update_each _ _ _) as [ds [r|]]; by py_run.
  - change (docs_of (MyMongodb.collection self) (World _ _ _ _))
      with (docs_of (MyMongodb.collection self) w).
    destruct (Pymongo.update_first _ _ _) as [[ds r]|]; by py_run.
Qed.

Lemma remove_first_split (p : document → bool) ds :
  ∃ l1 gone l2,
    ds = l1 ++ gone ++ l2 ∧ Pymongo.remove_first p ds = l1 ++ l2 ∧
    (length gone ≤ 1)%nat ∧ Forall (λ d, p d = true) gone.
Proof.
  induction ds as [|d ds IH]; simpl.
  - exists [], [], []. split_and!; simpl; auto.
  - destruct (p d) eqn:Hd.
    + exists [], [d], ds. split_and!; simpl; auto.
    + destruct IH as (l1 & gone & l2 & Hds & Hrm & Hlen & Hall).
      exists (d :: l1), gone, l2. split_and!; simpl; auto; congruence.
Qed.

Lemma update_first_split (p : document → bool) (u : update_doc) ds ds' r :
  Pymongo.update_first p u ds = Some (ds', r) →
  ∃ l1 old new l2,
    ds = l1 ++ old ++ l2 ∧ ds' = l1 ++ new ++ l2 ∧ (length old ≤ 1)%nat ∧
    Forall2 (λ d d', p d = true ∧ u d = Some d') old new.
Proof.
  revert ds' r. induction ds as [|d ds IH]; simpl; intros ds' r H.
  - simplify_eq. exists [], [], [], []. split_and!; simpl; auto.
  - destruct (p d) eqn:Hd.
    + destruct (u d) as [d'|] eqn:Hu; simplify_eq.
      exists [], [d], [d'], ds. split_and!; simpl; auto.
    + destruct (Pymongo.update_first p u ds) as [[ds0 r0]|]; simplify_eq.
      destruct (IH _ _ eq_refl) as (l1 & old & new & l2 & Hds & Hds' & Hlen & Hall).
      exists (d :: l1), old, new, l2. split_and!; simpl; auto; congruence.
Qed.

Lemma update_each_all (p : document → bool) (u : update_doc) ds :
  (∀ d, d ∈ ds → p d = true → is_Some (u d)) →
  ∃ ds' r,
    Pymongo.update_each p u ds = (ds', Some r) ∧
    Forall2 (λ d d', if p d then u d = Some d' else d' = d) ds ds'.
Proof.
  induction ds as [|d ds IH]; simpl; intros Hu.
  - by exists [], (UpdateResult 0 0).
  - destruct IH as (ds' & r & -> & Hall).
    { intros d' Hd'. apply Hu. by right. }
    destruct (p d) eqn:Hd.
    + destruct (Hu d) as [d' Hd']; [by left|done|]. rewrite Hd'.
      eexists _, _. split; [done|]. constructor; [by rewrite Hd|done].
    + eexists _, _. split; [done|]. constructor; [by rewrite Hd|done].
Qed.

Lemma docs_of_add_log coll c w : docs_of coll (add_log c w) = docs_of coll w.
Proof. done. Qed.

Lemma docs_of_add_call coll c w : docs_of coll (add_call c w) = docs_of coll w.
Proof. done. Qed.

(** The collection after [delete] and [update], by impact scope. *)
Lemma delete_single_docs self f w :
  docs_of (MyMongodb.collection self) (MyMongodb.delete self f "single" w).2 =
  if Query.filter_ok f
  then Pymongo.remove_first (Query.matches f) (docs_of (MyMongodb.collection self) w)
  else docs_of (MyMongodb.collection self) w.
Proof.
  rewrite delete_run. cbn. destruct (Query.filter_ok f); cbn; [|done].
  by rewrite docs_of_add_log, docs_of_replaced.
Qed.

Lemma delete_all_docs self f w :
  docs_of (MyMongodb.collection self) (MyMongodb.delete self f "all" w).2 =
  if Query.filter_ok f
  then List.filter (λ d, negb (Query.matches f d)) (docs_of (MyMongodb.collection self) w)
  else docs_of (MyMongodb.collection self) w.
Proof.
  rewrite delete_run. cbn. destruct (Query.filter_ok f); cbn; [|done].
  by rewrite docs_of_add_log, docs_of_replaced.
Qed.

Lemma update_single_docs self f u w :
  docs_of (MyMongodb.collection self) (MyMongodb.update self f u "single" w).2 =
  if Query.filter_ok f then
    match Pymongo.update_first (Query.matches f) u (docs_of (MyMongodb.collection self) w) with
    | Some (ds, _) => ds
    | None => docs_of (MyMongodb.collection self) w
    end
  else docs_of (MyMongodb.collection self) w.
Proof.
  rewrite update_run. cbn. destruct (Query.filter_ok f); cbn; [|done].
  destruct (Pymongo.update_first _ _ _) as [[ds r]|]; cbn; [|done].
  by rewrite docs_of_add_log, docs_of_replaced.
Qed.

Lemma update_all_docs self f u w :
  docs_of (MyMongodb.collection self) (MyMongodb.update self f u "all" w).2 =
  if Query.filter_ok f then
    (Pymongo.update_each (Query.matches f) u (docs_of (MyMongodb.collection self) w)).1
  else docs_of (MyMongodb.collection self) w.
Proof.
  rewrite update_run. cbn. destruct (Query.filter_ok f); cbn; [|done].
  destruct (Pymongo.update_each _ _ _) as [ds [r|]]; cbn.
  - by rewrite docs_of_add_log, docs_of_replaced.
  - by rewrite docs_of_replaced.
Qed.

(** C3. With an impact-scope token other than [single] and [all], [delete]
    and [update] log their error line and return normally without calling
    the driver: the server, and with it the collection, is as before.  With
    [single] at most one record, a matching one, is removed or updated.
    With [all], on a filter the server accepts, every matching record is
    removed, and every matching record is updated when the server can apply
    the update to each of them. *)
Theorem impact_scope self f (u : update_doc) impact w :
  let coll := MyMongodb.collection self in
  (impact ≠ "all" → impact ≠ "single" →
   MyMongodb.delete self f impact w =
     (Returned (), World (server w) (cursors w) (calls w) (log w ++ [delete_scope_error])) ∧
   MyMongodb.update self f u impact w =
     (Returned (), World (server w) (cursors w) (calls w) (log w ++ [update_scope_error])) ∧
   (Logging.emitted [delete_scope_error; update_scope_error]).*1 =
     [Logging.ERROR; Logging.ERROR]) ∧
  (∃ l1 gone l2,
     docs_of coll w = l1 ++ gone ++ l2 ∧
     docs_of coll (MyMongodb.delete self f "single" w).2 = l1 ++ l2 ∧
     (length gone ≤ 1)%nat ∧ Forall (λ d, Query.matches f d = true) gone) ∧
  (∃ l1 old new l2,
     docs_of coll w = l1 ++ old ++ l2 ∧
     docs_of coll (MyMongodb.update self f u "single" w).2 = l1 ++ new ++ l2 ∧
     (length old ≤ 1)%nat ∧
     Forall2 (λ d d', Query.matches f d = true ∧ u d = Some d') old new) ∧
  (Query.filter_ok f = true →
   (MyMongodb.delete self f "all" w).1 = Returned () ∧
   docs_of coll (MyMongodb.delete self f "all" w).2 =
     List.filter (λ d, negb (Query.matches f d)) (docs_of coll w) ∧
   ∀ d, d ∈ docs_of coll (MyMongodb.delete self f "all" w).2 → Query.matches f d = false) ∧
  (Query.filter_ok f = true →
   (∀ d, d ∈ docs_of coll w → Query.matches f d = true → is_Some (u d)) →
   (MyMongodb.update self f u "all" w).1 = Returned () ∧
   Forall2 (λ d d', if Query.matches f d then u d = Some d' else d' = d)
     (docs_of coll w) (docs_of coll (MyMongodb.update self f u "all" w).2)).
Proof.
  intros coll. subst coll. set (coll := MyMongodb.collection self). split_and!.
  - intros Hall Hsingle. rewrite delete_run, update_run.
    apply String.eqb_neq in Hall, Hsingle. by rewrite Hall, Hsingle.
  - subst coll. rewrite delete_single_docs. set (coll := MyMongodb.collection self). destruct (Query.filter_ok f).
    + apply remove_first_split.
    + exists (docs_of coll w), [], []. rewrite !app_nil_r. split_and!; simpl; auto.
  - subst coll. rewrite update_single_docs. set (coll := MyMongodb.collection self). destruct (Query.filter_ok f).
    + destruct (Pymongo.update_first _ _ _) as [[ds r]|] eqn:Hfirst.
      * by apply update_first_split in Hfirst.
      * exists (docs_of coll w), [], [], []. rewrite !app_nil_r.
        split_and!; simpl; auto.
    + exists (docs_of coll w), [], [], []. rewrite !app_nil_r.
      split_and!; simpl; auto.
  - intros Hok. subst coll. rewrite delete_all_docs, Hok.
    rewrite delete_run. cbn. rewrite Hok. split_and!; [done..|].
    intros d [_ Hd]%list_elem_of_In%filter_In. by apply negb_true_iff.
  - intros Hok Hu. subst coll. rewrite update_all_docs, Hok.
    rewrite update_run. cbn. rewrite Hok.
    destruct (update_each_all (Query.matches f) u _ Hu)
      as (ds' & r & -> & Hall).
    by split.
Qed.

(** The collection of the script once both students are stored. *)
Definition class_world : world :=
  World {[ "local" := {[ "students" := [student1; student2] ]} ]} [] [] [].

(** [{'age': {'$lt': 20}}] and [{'age': {'$gt': 20}}] *)
Definition under_twenty : filter_doc := [("age", CDoc [("$lt", VInt 20)])].
Definition over_twenty : filter_doc := [("age", CDoc [("$gt", VInt 20)])].

(** [{'$set': {'age': 1}}] *)
Definition set_age_one : update_doc := λ d, Some (<["age" := VInt 1]> d).

Lemma impact_scope_witness :
  (MyMongodb.delete mydb under_twenty "one" class_world =
     (Returned (), World (server class_world) [] [] [delete_scope_error]) ∧
   MyMongodb.update mydb under_twenty set_age_one "one" class_world =
     (Returned (), World (server class_world) [] [] [update_scope_error])) ∧
  ((MyMongodb.delete mydb under_twenty "all" class_world).1 = Returned () ∧
   docs_of students (MyMongodb.delete mydb under_twenty "all" class_world).2 = [student1]) ∧
  (MyMongodb.update mydb over_twenty set_age_one "all" class_world).1 = Returned ().
Proof.
  destruct (impact_scope mydb under_twenty set_age_one "one" class_world)
    as (Hother & _ & _ & Hdelete & _).
  destruct (impact_scope mydb over_twenty set_age_one "all" class_world)
    as (_ & _ & _ & _ & Hupdate).
  split_and!.
  - by apply Hother.
  - by apply Hother.
  - by apply Hdelete.
  - destruct Hdelete as (_ & Hdocs & _); [done|].
    etrans; [exact Hdocs|]. by vm_compute.
  - apply Hupdate; [done|]. intros d _ _. by eexists.
Defined.

(** The success line of [delete] has one conversion and one argument, and
    is printed with the count. *)
Lemma deleted_call_rendered n :
  Logging.render (Logging.call_message (deleted_call n)) =
  Some [Logging.Text "Successfully matched and deleted ";
        Logging.Shown (Logging.AInt n); Logging.Text " data."].
Proof. reflexivity. Qed.

(** The success line of [update] has two conversions and one argument: the
    merge fails and no line is printed. *)
Lemma updated_call_not_rendered m :
  Logging.render (Logging.call_message (updated_call m)) = None.
Proof. reflexivity. Qed.

Lemma update_success_log self f u impact w :
  impact = "all" ∨ impact = "single" →
  (MyMongodb.update self f u impact w).1 = Returned () →
  ∃ m, log (MyMongodb.update self f u impact w).2 = log w ++ [updated_call m] ∧
       Logging.emitted (log (MyMongodb.update self f u impact w).2) =
       Logging.emitted (log w).
Proof.
  intros Himpact. rewrite update_run. cbv zeta.
  assert (∀ m w1, log w1 = log w →
            log (add_log (updated_call m) w1) = log w ++ [updated_call m] ∧
            Logging.emitted (log (add_log (updated_call m) w1)) =
            Logging.emitted (log w)) as Hlog.
  { intros m w1 Hw1. cbn [add_log log]. rewrite Hw1. split; [done|].
    unfold Logging.emitted. rewrite omap_app. cbn. by rewrite app_nil_r. }
  assert (∀ ds c, log (Pymongo.replaced (MyMongodb.collection self) ds (add_call c w)) =
                  log w) as Hreplaced.
  { intros ds c. unfold Pymongo.replaced. by case_decide. }
  destruct Himpact as [-> | ->]; cbn; destruct (Query.filter_ok f); cbn; try done.
  - destruct (Pymongo.update_each _ _ _) as [ds [r|]]; cbn; [|done].
    intros _. exists (matched_count r). apply Hlog, Hreplaced.
  - destruct (Pymongo.update_first _ _ _) as [[ds r]|]; cbn; [|done].
    intros _. exists (matched_count r). apply Hlog, Hreplaced.
Qed.

(** C8. Updating the one student over twenty succeeds: the record is
    matched and modified.  The call to [logging.info] that follows gets the
    matched count only, for a template that asks for two values, so that no
    line reporting the matched and modified counts reaches the log. *)
Theorem update_success_line_lost :
  let run := MyMongodb.update mydb over_twenty set_age_one "all" class_world in
  run.1 = Returned () ∧
  docs_of students run.2 = [<["age" := VInt 1]> student1; student2] ∧
  log run.2 = [updated_call 1] ∧
  Logging.render (Logging.call_message (updated_call 1)) = None ∧
  Logging.emitted (log run.2) = [].
Proof. by vm_compute. Qed.

(** * Finding *)

Lemma bind_returned {A B} (m : py A) (k : A → py B) w a w' :
  m w = (Returned a, w') → (m ≫= k) w = k a w'.
Proof. intros H. unfold mbind, py_bind. by rewrite H. Qed.

Lemma bind_raised {A B} (m : py A) (k : A → py B) w e w' :
  m w = (Raised e, w') → (m ≫= k) w = (Raised e, w').
Proof. intros H. unfold mbind, py_bind. by rewrite H. Qed.

Lemma find_run coll f w :
  Pymongo.find coll f w =
  (Returned (length (cursors w)),
   World (server w) (cursors w ++ [Cursor coll f 0 0 None])
     (calls w ++ [CallFind coll f]) (log w)).
Proof. unfold Pymongo.find, Pymongo.allocate. by py_run. Qed.

Lemma limit_run cur n c w :
  cursors w !! cur = Some c → cur_buffer c = None →
  Pymongo.limit cur n w =
  (Returned cur,
   World (server w)
     (<[cur := Cursor (cur_coll c) (cur_filter c) n (cur_skip c) None]> (cursors w))
     (calls w ++ [CallLimit cur n]) (log w)).
Proof.
  intros Hc Hb. unfold Pymongo.limit, Pymongo.deref, Pymongo.assign. py_run.
  rewrite Hc. py_run. rewrite Hb. by py_run.
Qed.

Lemma skip_run cur n c w :
  cursors w !! cur = Some c → cur_buffer c = None →
  Pymongo.skip cur n w =
  if n <? 0 then
    (Raised ValueError,
     World (server w) (cursors w) (calls w ++ [CallSkip cur n]) (log w))
  else
    (Returned cur,
     World (server w)
       (<[cur := Cursor (cur_coll c) (cur_filter c) (cur_limit c) n None]> (cursors w))
       (calls w ++ [CallSkip cur n]) (log w)).
Proof.
  intros Hc Hb. unfold Pymongo.skip, Pymongo.deref, Pymongo.assign. py_run.
  destruct (n <? 0); [done|]. py_run. rewrite Hc. py_run. rewrite Hb. by py_run.
Qed.

(** [list(cursor)] on a cursor whose query has not been sent. *)
Lemma list_unsent_run cur c w :
  cursors w !! cur = Some c → cur_buffer c = None →
  Pymongo.list_ cur w =
  if Query.filter_ok (cur_filter c) then
    (Returned (Pymongo.answer c w),
     World (server w) (<[cur := Pymongo.set_buffer (Some []) c]> (cursors w))
       (calls w ++ [CallList cur]) (log w))
  else
    (Raised OperationFailure,
     World (server w) (<[cur := Pymongo.set_buffer (Some []) c]> (cursors w))
       (calls w ++ [CallList cur]) (log w)).
Proof.
  intros Hc Hb.
  unfold Pymongo.list_, Pymongo.pending, Pymongo.deref, Pymongo.assign. py_run.
  rewrite Hc. py_run. rewrite Hb.
  destruct (Query.filter_ok (cur_filter c)); py_run; [|done].
  rewrite Hc. by py_run.
Qed.

(** [list(cursor)] on a cursor that has handed out part of its answer. *)
Lemma list_sent_run cur c rest w :
  cursors w !! cur = Some c → cur_buffer c = Some rest →
  Pymongo.list_ cur w =
  (Returned rest,
   World (server w) (<[cur := Pymongo.set_buffer (Some []) c]> (cursors w))
     (calls w ++ [CallList cur]) (log w)).
Proof.
  intros Hc Hb.
  unfold Pymongo.list_, Pymongo.pending, Pymongo.deref, Pymongo.assign. py_run.
  rewrite Hc. py_run. rewrite Hb. py_run. rewrite Hc. by py_run.
Qed.

Lemma next_unsent_run cur c w :
  cursors w !! cur = Some c → cur_buffer c = None →
  Query.filter_ok (cur_filter c) = true →
  Pymongo.next cur w =
  (Returned (head (Pymongo.answer c w)),
   World (server w)
     (<[cur := Pymongo.set_buffer (Some (tail (Pymongo.answer c w))) c]> (cursors w))
     (calls w ++ [CallNext cur]) (log w)).
Proof.
  intros Hc Hb Hok.
  unfold Pymongo.next, Pymongo.pending, Pymongo.deref, Pymongo.assign. py_run.
  rewrite Hc. py_run. rewrite Hb, Hok. py_run. rewrite Hc. py_run.
  change (Pymongo.answer c (World _ _ _ _)) with (Pymongo.answer c w).
  by destruct (Pymongo.answer c w).
Qed.

Lemma next_sent_run cur c rest w :
  cursors w !! cur = Some c → cur_buffer c = Some rest →
  Pymongo.next cur w =
  (Returned (head rest),
   World (server w) (<[cur := Pymongo.set_buffer (Some (tail rest)) c]> (cursors w))
     (calls w ++ [CallNext cur]) (log w)).
Proof.
  intros Hc Hb.
  unfold Pymongo.next, Pymongo.pending, Pymongo.deref, Pymongo.assign. py_run.
  rewrite Hc. py_run. rewrite Hb. py_run. rewrite Hc. py_run.
  by destruct rest.
Qed.

Lemma clone_run cur c w :
  cursors w !! cur = Some c →
  Pymongo.clone cur w =
  (Returned (length (cursors w)),
   World (server w) (cursors w ++ [Pymongo.set_buffer None c])
     (calls w ++ [CallClone cur]) (log w)).
Proof.
  intros Hc. unfold Pymongo.clone, Pymongo.deref, Pymongo.allocate. py_run.
  rewrite Hc. by py_run.
Qed.

(** The filter [find_data] hands to [find]: [{key: value}] when [optional]
    is falsy, [{key: {optional: value}}] otherwise. *)
Definition find_data_filter (key : string) (value : value) (optional : option string)
  : filter_doc :=
  if Py.truthy optional then [(key, CDoc [(default "" optional, value)])]
  else [(key, CValue value)].

Lemma insert_last {A} (l : list A) (x y : A) :
  <[length l := y]> (l ++ [x]) = l ++ [y].
Proof. rewrite insert_app_r_alt by done. by rewrite Nat.sub_diag. Qed.

(** [collection.find(f).limit(limit_num).skip(skip_num)] *)
Lemma query_run coll f limit_num skip_num w :
  (c ← Pymongo.find coll f; c ← Pymongo.limit c limit_num; Pymongo.skip c skip_num) w =
  let cur := length (cursors w) in
  let issued :=
    calls w ++ [CallFind coll f; CallLimit cur limit_num; CallSkip cur skip_num] in
  if skip_num <? 0 then
    (Raised ValueError,
     World (server w) (cursors w ++ [Cursor coll f limit_num 0 None]) issued (log w))
  else
    (Returned cur,
     World (server w) (cursors w ++ [Cursor coll f limit_num skip_num None]) issued (log w)).
Proof.
  cbv zeta.
  erewrite bind_returned by apply find_run.
  erewrite bind_returned.
  2:{ apply limit_run with (c := Cursor coll f 0 0 None); [|done].
      cbn [cursors]. by apply list_lookup_middle. }
  cbn [cur_coll cur_filter cur_skip cursors].
  erewrite skip_run.
  2:{ cbn [cursors]. rewrite insert_last. by apply list_lookup_middle. }
  2:{ done. }
  cbn [server cursors calls log cur_coll cur_filter cur_limit].
  rewrite !insert_last. rewrite <- !app_assoc. cbn [app].
  by destruct (skip_num <? 0).
Qed.

(** [len(list(results))], with [results] itself. *)
Lemma list_then_count cur c w :
  cursors w !! cur = Some c → cur_buffer c = None →
  (listed ← Pymongo.list_ cur; mret (cur, length listed)) w =
  let w' := World (server w) (<[cur := Pymongo.set_buffer (Some []) c]> (cursors w))
              (calls w ++ [CallList cur]) (log w) in
  if Query.filter_ok (cur_filter c)
  then (Returned (cur, length (Pymongo.answer c w)), w')
  else (Raised OperationFailure, w').
Proof.
  intros Hc Hb. cbv zeta. destruct (Query.filter_ok (cur_filter c)) eqn:Hok.
  - erewrite bind_returned; [reflexivity|].
    rewrite (list_unsent_run cur c) by done. by rewrite Hok.
  - erewrite bind_raised; [reflexivity|].
    rewrite (list_unsent_run cur c) by done. by rewrite Hok.
Qed.

Lemma find_data_run self key value optional limit_num skip_num w :
  MyMongodb.find_data self key value optional limit_num skip_num w =
  let coll := MyMongodb.collection self in
  let f := find_data_filter key value optional in
  let cur := length (cursors w) in
  let issued :=
    calls w ++ [CallFind coll f; CallLimit cur limit_num; CallSkip cur skip_num] in
  if skip_num <? 0 then
    (Raised ValueError,
     World (server w) (cursors w ++ [Cursor coll f limit_num 0 None]) issued (log w))
  else if Query.filter_ok f then
    (Returned (cur, length (Pymongo.answer (Cursor coll f limit_num skip_num None) w)),
     World (server w) (cursors w ++ [Cursor coll f limit_num skip_num (Some [])])
       (issued ++ [CallList cur]) (log w))
  else
    (Raised OperationFailure,
     World (server w) (cursors w ++ [Cursor coll f limit_num skip_num (Some [])])
       (issued ++ [CallList cur]) (log w)).
Proof.
  cbv zeta. unfold MyMongodb.find_data, find_data_filter.
  destruct (Py.truthy optional); cbn [negb].
  all: destruct (skip_num <? 0) eqn:Hskip.
  all: try (erewrite bind_raised; [reflexivity|]; rewrite query_run; cbv zeta;
            by rewrite Hskip).
  all: erewrite bind_returned by (rewrite query_run; cbv zeta; by rewrite Hskip).
  all: erewrite list_then_count by
         (first [cbn [cursors]; by apply list_lookup_middle | done]).
  all: cbn [cur_filter cursors server calls log]; rewrite insert_last.
  all: by destruct (Query.filter_ok _).
Qed.

(** The records a query is answered with: those of the collection that
    match the filter, in natural order, windowed by skip and limit. *)
Definition matching (coll : collection_obj) (f : filter_doc) (w : world) : list document :=
  List.filter (Query.matches f) (docs_of coll w).

Definition page (coll : collection_obj) (f : filter_doc) (limit_num skip_num : Z) (w : world)
  : list document :=
  Pymongo.window limit_num skip_num (matching coll f w).

Lemma answer_page coll f limit_num skip_num buffer w :
  Pymongo.answer (Cursor coll f limit_num skip_num buffer) w = page coll f limit_num skip_num w.
Proof. done. Qed.

Lemma window_positive limit_num skip_num (ds : list document) :
  0 < limit_num →
  Pymongo.window limit_num skip_num ds =
  take (Z.to_nat limit_num) (drop (Z.to_nat skip_num) ds).
Proof.
  intros Hpos. unfold Pymongo.window.
  destruct (Z.eqb_spec limit_num 0) as [->|_]; [lia|].
  by rewrite Z.abs_eq by lia.
Qed.

Lemma window_default (ds : list document) :
  Z.of_nat (length ds) ≤ MyMongodb.default_limit_num →
  Pymongo.window MyMongodb.default_limit_num MyMongodb.default_skip_num ds = ds.
Proof.
  intros Hlen. rewrite window_positive by done.
  change (Z.to_nat MyMongodb.default_skip_num) with 0%nat. rewrite drop_0.
  apply take_ge. lia.
Qed.

(** What [find_data] returns on a query that the driver and the server
    accept, and the world it leaves: the cursor it returns has been read to
    its end by [len(list(results))]. *)
Lemma find_data_returns self key value optional limit_num skip_num w :
  0 ≤ skip_num →
  Query.filter_ok (find_data_filter key value optional) = true →
  MyMongodb.find_data self key value optional limit_num skip_num w =
  (Returned
     (length (cursors w),
      length (page (MyMongodb.collection self) (find_data_filter key value optional)
                limit_num skip_num w)),
   World (server w)
     (cursors w ++
      [Cursor (MyMongodb.collection self) (find_data_filter key value optional)
         limit_num skip_num (Some [])])
     (calls w ++
      [CallFind (MyMongodb.collection self) (find_data_filter key value optional);
       CallLimit (length (cursors w)) limit_num;
       CallSkip (length (cursors w)) skip_num;
       CallList (length (cursors w))])
     (log w)).
Proof.
  intros Hskip Hok. rewrite find_data_run. cbv zeta.
  destruct (Z.ltb_spec skip_num 0); [lia|]. rewrite Hok.
  by rewrite <- app_assoc.
Qed.

(** [list(cursor.clone())] *)
Lemma clone_then_list cur c w :
  cursors w !! cur = Some c →
  Query.filter_ok (cur_filter c) = true →
  ((c2 ← Pymongo.clone cur; Pymongo.list_ c2) w).1 =
  Returned (Pymongo.answer c w).
Proof.
  intros Hc Hok.
  erewrite bind_returned by (by apply clone_run).
  erewrite list_unsent_run.
  2:{ cbn [cursors]. by apply list_lookup_middle. }
  2:{ done. }
  cbn [cur_filter Pymongo.set_buffer]. by rewrite Hok.
Qed.

(** The count [find_data] returns and the records a clone of its cursor
    yields are those of the query's page. *)
Lemma find_data_page self key value optional limit_num skip_num w :
  0 ≤ skip_num →
  Query.filter_ok (find_data_filter key value optional) = true →
  ∃ cur w',
    MyMongodb.find_data self key value optional limit_num skip_num w =
      (Returned
         (cur,
          length (page (MyMongodb.collection self) (find_data_filter key value optional)
                    limit_num skip_num w)), w') ∧
    ((c ← Pymongo.clone cur; Pymongo.list_ c) w').1 =
      Returned (page (MyMongodb.collection self) (find_data_filter key value optional)
                  limit_num skip_num w).
Proof.
  intros Hskip Hok. eexists _, _. split.
  - by apply find_data_returns.
  - rewrite (clone_then_list _
               (Cursor (MyMongodb.collection self) (find_data_filter key value optional)
                  limit_num skip_num (Some []))); [done| |done].
    cbn [cursors]. by apply list_lookup_middle.
Qed.

(** X29. However [limit] and [skip] are called, the query skips first and
    limits then: on a query the driver and the server accept, the count
    [find_data] returns is the number of records in the window that starts
    after the first [skip_num] matching records and holds at most
    [limit_num] of them, and a clone of the cursor yields that window.  With
    five matching records, [limit_num=2] and [skip_num=1] give a count of 2
    and, from a clone, the second and the third in natural order. *)
Theorem find_data_skip_before_limit self key value optional limit_num skip_num w :
  let coll := MyMongodb.collection self in
  let f := find_data_filter key value optional in
  0 ≤ skip_num → Query.filter_ok f = true →
  ∃ cur w',
    MyMongodb.find_data self key value optional limit_num skip_num w =
      (Returned (cur, length (page coll f limit_num skip_num w)), w') ∧
    ((c ← Pymongo.clone cur; Pymongo.list_ c) w').1 =
      Returned (page coll f limit_num skip_num w) ∧
    (0 < limit_num →
     page coll f limit_num skip_num w =
       take (Z.to_nat limit_num) (drop (Z.to_nat skip_num) (matching coll f w))) ∧
    (limit_num = 0 →
     page coll f limit_num skip_num w = drop (Z.to_nat skip_num) (matching coll f w)) ∧
    (∀ r1 r2 r3 r4 r5,
       matching coll f w = [r1; r2; r3; r4; r5] → limit_num = 2 → skip_num = 1 →
       page coll f limit_num skip_num w = [r2; r3] ∧
       length (page coll f limit_num skip_num w) = 2%nat).
Proof.
  intros coll f Hskip Hok.
  destruct (find_data_page self key value optional limit_num skip_num w Hskip Hok)
    as (cur & w' & Hrun & Hclone).
  exists cur, w'. split_and!.
  - done.
  - done.
  - intros Hpos. by apply window_positive.
  - by intros ->.
  - intros r1 r2 r3 r4 r5 Hfive -> ->. unfold page. by rewrite Hfive.
Qed.

(** Five students over twenty, and one who is not, between them. *)
Definition aged (n : Z) : document := {[ "age" := VInt n ]}.

Definition five_world : world :=
  World {[ "local" :=
             {[ "students" := [aged 21; aged 22; aged 19; aged 23; aged 24; aged 25] ]} ]}
    [] [] [].

Lemma find_data_skip_before_limit_witness :
  ∃ cur w',
    MyMongodb.find_data mydb "age" (VInt 20) (Some "$gt") 2 1 five_world =
      (Returned (cur, 2%nat), w') ∧
    ((c ← Pymongo.clone cur; Pymongo.list_ c) w').1 = Returned [aged 22; aged 23].
Proof.
  destruct (find_data_skip_before_limit mydb "age" (VInt 20) (Some "$gt") 2 1 five_world)
    as (cur & w' & Hrun & Hclone & _ & _ & Hfive); [done|done|].
  destruct (Hfive (aged 21) (aged 22) (aged 23) (aged 24) (aged 25))
    as [Hpage Hlen]; [by vm_compute|done|done|].
  exists cur, w'. split.
  - by rewrite <- Hlen.
  - by rewrite <- Hpage.
Defined.

(** ** The filter *)

Lemma find_data_filter_plain key value optional :
  optional = None ∨ optional = Some "" →
  find_data_filter key value optional = [(key, CValue value)].
Proof. by intros [-> | ->]. Qed.

Lemma find_data_filter_operator key value operator :
  operator ≠ "" →
  find_data_filter key value (Some operator) = [(key, CDoc [(operator, value)])].
Proof.
  intros Hop. unfold find_data_filter.
  assert (Py.truthy (Some operator) = true) as -> by (apply truthy_true; eauto).
  done.
Qed.

Lemma find_data_calls_find self key value optional limit_num skip_num w :
  ∃ rest,
    calls (MyMongodb.find_data self key value optional limit_num skip_num w).2 =
    calls w ++
    CallFind (MyMongodb.collection self) (find_data_filter key value optional) :: rest.
Proof.
  rewrite find_data_run. cbv zeta.
  destruct (skip_num <? 0); [|destruct (Query.filter_ok _)]; cbn [snd calls];
    rewrite <- ?app_assoc; by eexists.
Qed.

(** [{'age': 20}] holds of the records whose age is 20. *)
Lemma matches_age_equal (n : Z) (d : document) :
  Query.matches [("age", CValue (VInt n))] d = true ↔ d !! "age" = Some (VInt n).
Proof.
  unfold Query.matches. cbn. rewrite andb_true_r. apply bool_decide_eq_true.
Qed.

(** [{'age': {'$gt': 20}}] holds of the records whose age is an integer
    greater than 20. *)
Lemma matches_age_greater (n : Z) (d : document) :
  Query.matches [("age", CDoc [("$gt", VInt n)])] d = true ↔
  ∃ m, d !! "age" = Some (VInt m) ∧ n < m.
Proof.
  unfold Query.matches. cbn. unfold Query.field. cbn.
  destruct (d !! "age") as [[m|s]|]; cbn.
  - rewrite !andb_true_r. destruct (Z.compare_spec m n); split; try done.
    + intros (m' & ? & ?). simplify_eq. lia.
    + intros (m' & ? & ?). simplify_eq. lia.
    + intros _. exists m. split; [done|lia].
  - split; [done|]. intros (m' & ? & ?). done.
  - split; [done|]. intros (m' & ? & ?). done.
Qed.

(** Records where age == n, and records where age > n. *)
Definition age_is (n : Z) (d : document) : bool :=
  bool_decide (d !! "age" = Some (VInt n)).

Definition age_over (n : Z) (d : document) : bool :=
  match d !! "age" with
  | Some (VInt m) => n <? m
  | _ => false
  end.

Lemma matching_age_is coll n w :
  matching coll [("age", CValue (VInt n))] w = List.filter (age_is n) (docs_of coll w).
Proof.
  apply filter_ext. intros d. unfold Query.matches, age_is. cbn.
  by rewrite andb_true_r.
Qed.

Lemma matching_age_over coll n w :
  matching coll [("age", CDoc [("$gt", VInt n)])] w =
  List.filter (age_over n) (docs_of coll w).
Proof.
  apply filter_ext. intros d. unfold Query.matches, age_over. cbn.
  unfold Query.field. cbn.
  destruct (d !! "age") as [[m|s]|]; cbn; [|done..].
  rewrite !andb_true_r.
  destruct (Z.compare_spec m n), (Z.ltb_spec n m); done || lia.
Qed.

(** X28. [find_data] hands to [find] the filter [{key: value}] when no
    operator is given (none, or the empty text) and [{key: {operator:
    value}}] when one is given.  [{'age': 20}] holds of exactly the records
    whose age is 20 and [{'age': {'$gt': 20}}] of exactly those whose age is
    an integer greater than 20.  With the default limit and skip, and as
    long as no more records match than the default limit of 99999 lets
    through, the count returned is the number of these records, and they are
    what a clone of the returned cursor yields, in natural order. *)
Theorem find_data_builds_filter self key value optional limit_num skip_num w :
  let coll := MyMongodb.collection self in
  (optional = None ∨ optional = Some "" →
   find_data_filter key value optional = [(key, CValue value)]) ∧
  (∀ operator, optional = Some operator → operator ≠ "" →
   find_data_filter key value optional = [(key, CDoc [(operator, value)])]) ∧
  (∃ rest,
     calls (MyMongodb.find_data self key value optional limit_num skip_num w).2 =
     calls w ++ CallFind coll (find_data_filter key value optional) :: rest) ∧
  (∀ d, Query.matches (find_data_filter "age" (VInt 20) None) d = true ↔
        d !! "age" = Some (VInt 20)) ∧
  (∀ d, Query.matches (find_data_filter "age" (VInt 20) (Some "$gt")) d = true ↔
        ∃ m, d !! "age" = Some (VInt m) ∧ 20 < m) ∧
  (Z.of_nat (length (List.filter (age_is 20) (docs_of coll w))) ≤
     MyMongodb.default_limit_num →
   ∃ cur w',
     MyMongodb.find_data self "age" (VInt 20) None
       MyMongodb.default_limit_num MyMongodb.default_skip_num w =
       (Returned (cur, length (List.filter (age_is 20) (docs_of coll w))), w') ∧
     ((c ← Pymongo.clone cur; Pymongo.list_ c) w').1 =
       Returned (List.filter (age_is 20) (docs_of coll w))) ∧
  (Z.of_nat (length (List.filter (age_over 20) (docs_of coll w))) ≤
     MyMongodb.default_limit_num →
   ∃ cur w',
     MyMongodb.find_data self "age" (VInt 20) (Some "$gt")
       MyMongodb.default_limit_num MyMongodb.default_skip_num w =
       (Returned (cur, length (List.filter (age_over 20) (docs_of coll w))), w') ∧
     ((c ← Pymongo.clone cur; Pymongo.list_ c) w').1 =
       Returned (List.filter (age_over 20) (docs_of coll w))).
Proof.
  intros coll. split_and!.
  - apply find_data_filter_plain.
  - intros operator ->. apply find_data_filter_operator.
  - apply find_data_calls_find.
  - apply matches_age_equal.
  - apply matches_age_greater.
  - intros Hfew.
    destruct (find_data_page self "age" (VInt 20) None
                MyMongodb.default_limit_num MyMongodb.default_skip_num w)
      as (cur & w' & Hrun & Hclone); [done|done|].
    fold coll in Hrun, Hclone. unfold page in Hrun, Hclone.
    change (find_data_filter "age" (VInt 20) None)
      with [("age", CValue (VInt 20))] in Hrun, Hclone.
    rewrite matching_age_is, window_default in Hrun, Hclone by done.
    by exists cur, w'.
  - intros Hfew.
    destruct (find_data_page self "age" (VInt 20) (Some "$gt")
                MyMongodb.default_limit_num MyMongodb.default_skip_num w)
      as (cur & w' & Hrun & Hclone); [done|done|].
    fold coll in Hrun, Hclone. unfold page in Hrun, Hclone.
    change (find_data_filter "age" (VInt 20) (Some "$gt"))
      with [("age", CDoc [("$gt", VInt 20)])] in Hrun, Hclone.
    rewrite matching_age_over, window_default in Hrun, Hclone by done.
    by exists cur, w'.
Qed.

Lemma find_data_builds_filter_witness :
  find_data_filter "name" (VStr "Jordan") None = [("name", CValue (VStr "Jordan"))] ∧
  find_data_filter "age" (VInt 20) (Some "$gt") = [("age", CDoc [("$gt", VInt 20)])] ∧
  (∃ cur w',
     MyMongodb.find_data mydb "age" (VInt 20) None
       MyMongodb.default_limit_num MyMongodb.default_skip_num class_world =
       (Returned (cur, 0%nat), w')) ∧
  (∃ cur w',
     MyMongodb.find_data mydb "age" (VInt 20) (Some "$gt")
       MyMongodb.default_limit_num MyMongodb.default_skip_num class_world =
       (Returned (cur, 1%nat), w') ∧
     ((c ← Pymongo.clone cur; Pymongo.list_ c) w').1 = Returned [student1]).
Proof.
  destruct (find_data_builds_filter mydb "name" (VStr "Jordan") None 99999 0 class_world)
    as (Hplain & _).
  destruct (find_data_builds_filter mydb "age" (VInt 20) (Some "$gt") 99999 0 class_world)
    as (_ & Hoperator & _ & _ & _ & Hequal & Hgreater).
  split_and!.
  - apply Hplain. by left.
  - by apply Hoperator.
  - destruct Hequal as (cur & w' & Hrun & _); [by vm_compute|].
    by exists cur, w'.
  - destruct Hgreater as (cur & w' & Hrun & Hclone); [by vm_compute|].
    by exists cur, w'.
Defined.

(** ** The cursor that is returned *)

(** The script's collection after [mydb.insert([student1, student2])] on a
    fresh server. *)
Definition scenario_world : world :=
  (MyMongodb.insert mydb [student1; student2] false fresh_world).2.

(** Whenever [find_data] returns, the cursor it returns has been read to
    its end by [len(list(results))]: reading it yields nothing more. *)
Lemma find_data_cursor_read self key v optional limit_num skip_num w cur n w' :
  MyMongodb.find_data self key v optional limit_num skip_num w = (Returned (cur, n), w') →
  (Pymongo.list_ cur w').1 = Returned [] ∧
  (Pymongo.next cur w').1 = Returned None.
Proof.
  rewrite find_data_run. cbv zeta.
  destruct (skip_num <? 0); [done|]. destruct (Query.filter_ok _); [|done].
  intros [= <- <- <-].
  set (spent := Cursor (MyMongodb.collection self) (find_data_filter key v optional)
                  limit_num skip_num (Some [])).
  assert (cursors
            (World (server w) (cursors w ++ [spent])
               ((calls w ++
                 [CallFind (MyMongodb.collection self) (find_data_filter key v optional);
                  CallLimit (length (cursors w)) limit_num;
                  CallSkip (length (cursors w)) skip_num]) ++
                [CallList (length (cursors w))]) (log w))
            !! length (cursors w) = Some spent) as Hspent
    by (cbn [cursors]; by apply list_lookup_middle).
  split.
  - by rewrite (list_sent_run _ spent []).
  - by rewrite (next_sent_run _ spent []).
Qed.

(** C2. The sequence [find_data] returns does not yield the matching
    records.  After the two students are inserted, the call for the
    students over twenty returns the count 1, and John's record is the one
    that matches; but the cursor returned has been read to its end inside
    [find_data], by [len(list(results))], and yields nothing: [list] of it
    is empty and [next] is at the end. *)
Theorem find_data_cursor_spent :
  ∃ cur w',
    MyMongodb.find_data mydb "age" (VInt 20) (Some "$gt")
      MyMongodb.default_limit_num MyMongodb.default_skip_num scenario_world =
      (Returned (cur, 1%nat), w') ∧
    matching students over_twenty scenario_world = [student1] ∧
    (Pymongo.list_ cur w').1 = Returned [] ∧
    (Pymongo.next cur w').1 = Returned None.
Proof.
  eexists _, _. split; [by rewrite find_data_returns by done|].
  split_and!; by vm_compute.
Qed.

(** C5. With five matching records, [limit_num=2] and [skip_num=1],
    [find_data] does not return the records ranked second and third, and the
    count it returns is not the number of records the returned sequence
    yields.  The query itself skips before it limits: its answer is the
    second and the third of the five matching records, and the count
    returned is 2.  But that answer has been read inside [find_data], by
    [len(list(results))]: the cursor returned yields no record. *)
Theorem find_data_page_cursor_spent :
  ∃ cur w',
    MyMongodb.find_data mydb "age" (VInt 20) (Some "$gt") 2 1 five_world =
      (Returned (cur, 2%nat), w') ∧
    matching students over_twenty five_world =
      [aged 21; aged 22; aged 23; aged 24; aged 25] ∧
    page students over_twenty 2 1 five_world = [aged 22; aged 23] ∧
    (Pymongo.list_ cur w').1 = Returned [] ∧
    (Pymongo.next cur w').1 = Returned None.
Proof.
  eexists _, _. split; [by rewrite find_data_returns by done|].
  split_and!; by vm_compute.
Qed.

(** Two students aged twenty, one older and one younger. *)
Definition twenties_world : world :=
  World {[ "local" := {[ "students" := [aged 20; aged 21; aged 19; aged 20] ]} ]}
    [] [] [].

(** C6. [find_data] builds [{'age': 20}] without an operator and
    [{'age': {'$gt': 20}}] with ['$gt'], but it does not return the records
    these filters select.  In a collection with two students aged 20, one
    aged 21 and one aged 19, the call without an operator returns the count
    2 and the call with ['$gt'] the count 1, the numbers of records whose
    age is 20 and whose age is over 20; in both calls the cursor returned
    has been read to its end by [len(list(results))] and yields no
    record. *)
Theorem find_data_filter_cursor_spent :
  find_data_filter "age" (VInt 20) None = [("age", CValue (VInt 20))] ∧
  find_data_filter "age" (VInt 20) (Some "$gt") = [("age", CDoc [("$gt", VInt 20)])] ∧
  (∃ cur w',
    MyMongodb.find_data mydb "age" (VInt 20) None
      MyMongodb.default_limit_num MyMongodb.default_skip_num twenties_world =
      (Returned (cur, 2%nat), w') ∧
    List.filter (age_is 20) (docs_of students twenties_world) = [aged 20; aged 20] ∧
    (Pymongo.list_ cur w').1 = Returned [] ∧
    (Pymongo.next cur w').1 = Returned None) ∧
  (∃ cur w',
    MyMongodb.find_data mydb "age" (VInt 20) (Some "$gt")
      MyMongodb.default_limit_num MyMongodb.default_skip_num twenties_world =
      (Returned (cur, 1%nat), w') ∧
    List.filter (age_over 20) (docs_of students twenties_world) = [aged 21] ∧
    (Pymongo.list_ cur w').1 = Returned [] ∧
    (Pymongo.next cur w').1 = Returned None).
Proof.
  split; [done|]. split; [done|]. split.
  - eexists _, _. split; [by rewrite find_data_returns by done|].
    split_and!; by vm_compute.
  - eexists _, _. split; [by rewrite find_data_returns by done|].
    split_and!; by vm_compute.
Qed.

(** X30. On a query with a skip count that is not negative and a filter
    the server accepts, a clone of the cursor that [find_data] returns is a
    new cursor for the same query, not sent yet.  It is lazy: it is answered
    from the collection as it is when the clone is first read.  It yields
    exactly the records of the query's answer, whose number [find_data]
    returned.  It is forward-only: the record handed out by [next] is gone,
    and once read to its end the clone yields nothing. *)
Theorem find_data_clone_yields self key value optional limit_num skip_num w :
  let coll := MyMongodb.collection self in
  let f := find_data_filter key value optional in
  let query := Cursor coll f limit_num skip_num None in
  0 ≤ skip_num → Query.filter_ok f = true →
  ∃ cur w',
    MyMongodb.find_data self key value optional limit_num skip_num w =
      (Returned (cur, length (page coll f limit_num skip_num w)), w') ∧
    server w' = server w ∧
    ∃ c2 w2,
      Pymongo.clone cur w' = (Returned c2, w2) ∧
      c2 ≠ cur ∧
      server w2 = server w ∧
      cursors w2 !! c2 = Some query ∧
      (∀ w3, cursors w3 !! c2 = Some query →
             (Pymongo.list_ c2 w3).1 = Returned (page coll f limit_num skip_num w3)) ∧
      (Pymongo.list_ c2 w2).1 = Returned (page coll f limit_num skip_num w) ∧
      ((r ← Pymongo.next c2; rest ← Pymongo.list_ c2; mret (r, rest)) w2).1 =
        Returned (head (page coll f limit_num skip_num w),
                  tail (page coll f limit_num skip_num w)) ∧
      ((Pymongo.list_ c2;; Pymongo.list_ c2) w2).1 = Returned [].
Proof.
  intros coll f query Hskip Hok.
  eexists _, _. split; [by apply find_data_returns|]. split; [done|].
  set (spent := Cursor coll f limit_num skip_num (Some [])).
  eexists _, _. split.
  { apply (clone_run _ spent). cbn [cursors]. by apply list_lookup_middle. }
  cbn [cursors server]. rewrite length_app. cbn [length].
  assert (((cursors w ++ [spent]) ++ [Pymongo.set_buffer None spent]) !!
            (length (cursors w) + 1)%nat = Some query) as Hquery.
  { replace (length (cursors w) + 1)%nat with (length (cursors w ++ [spent]))
      by (rewrite length_app; cbn; lia).
    by apply list_lookup_middle. }
  assert (∀ w3, cursors w3 !! (length (cursors w) + 1)%nat = Some query →
            Pymongo.list_ (length (cursors w) + 1) w3 =
            (Returned (page coll f limit_num skip_num w3),
             World (server w3)
               (<[(length (cursors w) + 1)%nat := Pymongo.set_buffer (Some []) query]>
                  (cursors w3))
               (calls w3 ++ [CallList (length (cursors w) + 1)]) (log w3))) as Hlist.
  { intros w3 Hw3. rewrite (list_unsent_run _ query) by done.
    cbn [cur_filter query]. by rewrite Hok. }
  split_and!.
  - lia.
  - done.
  - done.
  - intros w3 Hw3. by rewrite Hlist.
  - by rewrite Hlist.
  - erewrite bind_returned.
    2:{ by apply (next_unsent_run _ query). }
    erewrite bind_returned.
    2:{ apply (list_sent_run _
                 (Pymongo.set_buffer (Some (tail (Pymongo.answer query w))) query)
                 (tail (Pymongo.answer query w))); [|done].
        cbn [cursors]. apply list_lookup_insert_eq. by eapply lookup_lt_Some. }
    done.
  - erewrite bind_returned by (by apply Hlist).
    rewrite (list_sent_run _ (Pymongo.set_buffer (Some []) query) []); [done| |done].
    cbn [cursors]. apply list_lookup_insert_eq. by eapply lookup_lt_Some.
Qed.

Lemma find_data_clone_yields_witness :
  ∃ cur w',
    MyMongodb.find_data mydb "age" (VInt 20) (Some "$gt")
      MyMongodb.default_limit_num MyMongodb.default_skip_num scenario_world =
      (Returned (cur, 1%nat), w') ∧
    ∃ c2 w2,
      Pymongo.clone cur w' = (Returned c2, w2) ∧
      (Pymongo.list_ c2 w2).1 = Returned [student1].
Proof.
  destruct (find_data_clone_yields mydb "age" (VInt 20) (Some "$gt")
              MyMongodb.default_limit_num MyMongodb.default_skip_num scenario_world)
    as (cur & w' & Hrun & _ & c2 & w2 & Hclone & _ & _ & _ & _ & Hlist & _);
    [done|done|].
  exists cur, w'. split; [exact Hrun|].
  exists c2, w2. split; [exact Hclone|]. exact Hlist.
Defined.

(** * Further properties of the deduplication helper *)

Section DedupMore.
Context {A : Type} `{EqDecision A}.

Lemma dedup_step_new (res : list A) x : x ∉ res → dedup_step res x = res ++ [x].
Proof. intros Hx. unfold dedup_step. by case_decide. Qed.

Lemma dedup_step_old (res : list A) x : x ∈ res → dedup_step res x = res.
Proof. intros Hx. unfold dedup_step. by case_decide. Qed.

Lemma remove_duplicates_fixed (l : list A) : NoDup l → remove_duplicates l = l.
Proof.
  induction l as [|x l IH] using rev_ind; [done|].
  intros [Hl [Hx _]]%NoDup_app. rewrite remove_duplicates_snoc, IH by done.
  apply dedup_step_new. intros Hin. by apply (Hx x), list_elem_of_singleton.
Qed.

Lemma remove_duplicates_same_length (l : list A) :
  length (remove_duplicates l) = length l → NoDup l.
Proof.
  induction l as [|x l IH] using rev_ind; [constructor|].
  rewrite remove_duplicates_snoc, length_app. cbn [length].
  pose proof (remove_duplicates_length l) as Hle.
  destruct (decide (x ∈ remove_duplicates l)) as [Hx|Hx].
  - rewrite dedup_step_old by done. lia.
  - rewrite dedup_step_new, length_app by done. cbn [length]. intros Hlen.
    apply NoDup_app. split_and!.
    + apply IH. lia.
    + intros y Hy ->%list_elem_of_singleton. by apply Hx, remove_duplicates_elem_of.
    + apply NoDup_singleton.
Qed.

(** Deduplicating two batches at once: the second batch loses its own
    duplicates and the records of the first. *)
Lemma remove_duplicates_app_filter (l1 l2 : list A) :
  remove_duplicates (l1 ++ l2) =
  remove_duplicates l1 ++ filter (λ y, y ∉ l1) (remove_duplicates l2).
Proof.
  induction l2 as [|x l2 IH] using rev_ind.
  - by rewrite !app_nil_r.
  - rewrite app_assoc, !remove_duplicates_snoc, IH.
    destruct (decide (x ∈ l2)) as [Hx2|Hx2].
    + rewrite (dedup_step_old (remove_duplicates l2)) by by apply remove_duplicates_elem_of.
      destruct (decide (x ∈ l1)) as [Hx1|Hx1].
      * apply dedup_step_old. rewrite elem_of_app, remove_duplicates_elem_of. by left.
      * apply dedup_step_old. rewrite elem_of_app, list_elem_of_filter,
          !remove_duplicates_elem_of. tauto.
    + rewrite (dedup_step_new (remove_duplicates l2))
        by by rewrite remove_duplicates_elem_of.
      rewrite filter_app, filter_cons, filter_nil.
      destruct (decide (x ∉ l1)) as [Hx1|Hx1].
      * rewrite app_assoc. apply dedup_step_new.
        rewrite elem_of_app, list_elem_of_filter, !remove_duplicates_elem_of. tauto.
      * rewrite app_nil_r. apply dedup_step_old.
        rewrite elem_of_app, remove_duplicates_elem_of.
        left. by destruct (decide (x ∈ l1)).
Qed.

End DedupMore.

(** X1. Deduplicating a deduplicated list changes nothing. *)
Theorem remove_duplicates_idempotent {A : Type} `{EqDecision A} (l : list A) :
  remove_duplicates (remove_duplicates l) = remove_duplicates l.
Proof. apply remove_duplicates_fixed, remove_duplicates_NoDup. Qed.

(** X2. [remove_duplicates] returns its input unchanged exactly when the
    input has no duplicates, and this is also exactly when the output is as
    long as the input. *)
Theorem remove_duplicates_unchanged_iff {A : Type} `{EqDecision A} (l : list A) :
  (remove_duplicates l = l ↔ NoDup l) ∧
  (length (remove_duplicates l) = length l ↔ NoDup l).
Proof.
  split; split.
  - intros <-. apply remove_duplicates_NoDup.
  - apply remove_duplicates_fixed.
  - apply remove_duplicates_same_length.
  - intros Hl. by rewrite remove_duplicates_fixed.
Qed.

(** X3. The first record of the input is always kept, and the rest of the
    output is the deduplicated rest of the input without that record. *)
Theorem remove_duplicates_cons {A : Type} `{EqDecision A} (x : A) (l : list A) :
  remove_duplicates (x :: l) = x :: filter (λ y, y ≠ x) (remove_duplicates l).
Proof.
  change (x :: l) with ([x] ++ l). rewrite remove_duplicates_app_filter.
  cbn. f_equal. apply list_filter_iff. intros y.
  rewrite list_elem_of_singleton. done.
Qed.

(** X4. Deduplicating the concatenation of two batches gives the
    deduplicated first batch followed by the deduplicated second batch
    without the records that occur in the first. *)
Theorem remove_duplicates_app {A : Type} `{EqDecision A} (l1 l2 : list A) :
  remove_duplicates (l1 ++ l2) =
  remove_duplicates l1 ++ filter (λ y, y ∉ l1) (remove_duplicates l2).
Proof. apply remove_duplicates_app_filter. Qed.

(** * Further properties of construction *)

Lemma elem_of_map_keys {V} (m : gmap string V) (k : string) :
  k ∈ (map_to_list m).*1 ↔ is_Some (m !! k).
Proof.
  rewrite list_elem_of_fmap. split.
  - intros ([k' v] & -> & Hkv). apply elem_of_map_to_list in Hkv. by exists v.
  - intros [v Hv]. exists (k, v). split; [done|]. by apply elem_of_map_to_list.
Qed.

(** Construction only adds driver calls and log calls to the world, and the
    first log call is the line about the connection. *)
Lemma init_world host port database collection w :
  ∃ new_calls new_log,
    (MyMongodb.__init__ host port database collection w).2 =
    World (server w) (cursors w) (calls w ++ new_calls)
      (log w ++ connected_call :: new_log).
Proof.
  destruct (Py.truthy database && Py.truthy collection) eqn:Hnames.
  - apply andb_true_iff in Hnames as [(d & -> & Hd)%truthy_true (c & -> & Hc)%truthy_true].
    unfold MyMongodb.__init__.
    assert (Py.truthy (Some d) = true) as -> by (apply truthy_true; eauto).
    assert (Py.truthy (Some c) = true) as -> by (apply truthy_true; eauto).
    unfold Pymongo.MongoClient, Pymongo.list_database_names, Pymongo.get_database,
      Pymongo.list_collection_names, Pymongo.get_collection.
    cbn [negb orb]. cbv zeta.
    change (default "" (Some d)) with d. change (default "" (Some c)) with c.
    py_run.
    repeat (match goal with
            | |- context [bool_decide ?P] => destruct (bool_decide P)
            | |- context [if Pymongo.valid_database_name d then _ else _] =>
                destruct (Pymongo.valid_database_name d)
            | |- context [if Pymongo.valid_collection_name c then _ else _] =>
                destruct (Pymongo.valid_collection_name c)
            end; py_run);
      rewrite <- ?app_assoc; cbn [app]; by eexists _, _.
  - rewrite init_missing_name.
    + by eexists _, _.
    + apply andb_false_iff in Hnames. tauto.
Qed.

(** X5. Whatever host and port are passed, the line logged about the
    connection names [localhost] and 27017: it prints the class defaults of
    the driver's client, not the address in use. *)
Theorem init_connection_line host port database collection w :
  ∃ rest,
    log (MyMongodb.__init__ host port database collection w).2 =
      log w ++ connected_call :: rest ∧
    Logging.emitted [connected_call] =
      [(Logging.INFO,
        [Logging.Text "Successfully connected the client on ";
         Logging.Shown (Logging.AStr "localhost"); Logging.Text ":";
         Logging.Shown (Logging.AInt 27017)])].
Proof.
  destruct (init_world host port database collection w) as (cs & ls & ->).
  by exists ls.
Qed.

(** X6. Construction reads the server and never writes to it: whatever the
    arguments, and whether it returns or raises, the databases and their
    collections are as before (a database or collection that is absent is
    not created), and no cursor is made. *)
Theorem init_read_only host port database collection w :
  server (MyMongodb.__init__ host port database collection w).2 = server w ∧
  cursors (MyMongodb.__init__ host port database collection w).2 = cursors w.
Proof.
  by destruct (init_world host port database collection w) as (cs & ls & ->).
Qed.

Lemma init_database_warned host port d c w :
  d ≠ "" → c ≠ "" →
  database_warning_call d ∈
    drop (length (log w)) (log (MyMongodb.__init__ host port (Some d) (Some c) w).2) ↔
  server w !! d = None.
Proof.
  intros Hd Hc. rewrite eq_None_not_Some, <- elem_of_map_keys.
  unfold MyMongodb.__init__.
  assert (Py.truthy (Some d) = true) as -> by (apply truthy_true; eauto).
  assert (Py.truthy (Some c) = true) as -> by (apply truthy_true; eauto).
  unfold Pymongo.MongoClient, Pymongo.list_database_names, Pymongo.get_database,
    Pymongo.list_collection_names, Pymongo.get_collection.
  cbn [negb orb]. cbv zeta.
  change (default "" (Some d)) with d. change (default "" (Some c)) with c.
  py_run.
  repeat (match goal with
          | |- context [bool_decide ?P] => destruct (bool_decide_reflect P)
          | |- context [if Pymongo.valid_database_name d then _ else _] =>
              destruct (Pymongo.valid_database_name d)
          | |- context [if Pymongo.valid_collection_name c then _ else _] =>
              destruct (Pymongo.valid_collection_name c)
          end; py_run);
    rewrite <- ?app_assoc, drop_app_length; cbn;
    rewrite ?elem_of_cons, elem_of_nil;
    unfold database_warning_call, MyMongodb.collection_warning;
    intuition (try discriminate; try done).
Qed.

(** X7. With both names given, the warning about the database is logged
    exactly when the server has no database of that name. *)
Theorem init_database_warning_iff host port d c w :
  d ≠ "" → c ≠ "" →
  database_warning_call d ∈
    drop (length (log w)) (log (MyMongodb.__init__ host port (Some d) (Some c) w).2) ↔
  server w !! d = None.
Proof. apply init_database_warned. Qed.

Lemma init_database_warning_iff_witness :
  database_warning_call "local" ∈
    log (MyMongodb.__init__ "localhost" 27017 (Some "local") (Some "students")
           fresh_world).2.
Proof.
  by apply (init_database_warning_iff "localhost" 27017 "local" "students" fresh_world).
Defined.

(** * Further properties of insertion *)

Lemma docs_of_set_docs_ne coll coll' ds w :
  coll' ≠ coll → docs_of coll' (set_docs coll ds w) = docs_of coll' w.
Proof.
  intros Hne. unfold docs_of, set_docs, set_server. cbn [server].
  destruct (decide (coll_db coll' = coll_db coll)) as [Hdb|Hdb].
  - rewrite Hdb, lookup_insert_eq. cbn.
    rewrite lookup_insert_ne.
    + by destruct (server w !! coll_db coll).
    + intros Hname. apply Hne. destruct coll, coll'. cbn in *. congruence.
  - by rewrite lookup_insert_ne.
Qed.

Lemma remove_duplicates_nil_inv {A} `{EqDecision A} (l : list A) :
  remove_duplicates l = [] → l = [].
Proof.
  destruct l as [|x l]; [done|]. intros Hnil.
  assert (x ∈ remove_duplicates (x :: l)) as Hx
    by (apply remove_duplicates_elem_of; by left).
  rewrite Hnil in Hx. by apply elem_of_nil in Hx.
Qed.

(** X8. [insert] writes to the accessor's collection only: whatever the
    arguments, and whether it returns or raises, every other collection
    holds the records it held, and no cursor is made or changed. *)
Theorem insert_frame self insert_data ordered w coll' :
  coll' ≠ MyMongodb.collection self →
  docs_of coll' (MyMongodb.insert self insert_data ordered w).2 = docs_of coll' w ∧
  cursors (MyMongodb.insert self insert_data ordered w).2 = cursors w.
Proof.
  intros Hne. rewrite insert_run.
  destruct (remove_duplicates insert_data) as [|d data]; [done|].
  cbn [snd]. rewrite docs_of_add_log, docs_of_set_docs_ne by done. done.
Qed.

Lemma insert_frame_witness :
  docs_of (Collection "local" "teachers")
    (MyMongodb.insert mydb [student1; student2] false enrolled_world).2 = [].
Proof.
  by apply (insert_frame mydb [student1; student2] false enrolled_world
              (Collection "local" "teachers")).
Defined.

(** X9. The [ordered] flag only reaches the multi-record insert: when
    deduplication leaves exactly one record, [insert] does the same with
    [ordered=True] as with [ordered=False]. *)
Theorem insert_ordered_unused self insert_data w :
  length (remove_duplicates insert_data) = 1%nat →
  MyMongodb.insert self insert_data true w = MyMongodb.insert self insert_data false w.
Proof.
  intros Hone. rewrite !insert_run.
  by destruct (remove_duplicates insert_data) as [|d [|d' data]].
Qed.

Lemma insert_ordered_unused_witness :
  MyMongodb.insert mydb [student1; student1] true fresh_world =
  MyMongodb.insert mydb [student1; student1] false fresh_world.
Proof. by apply (insert_ordered_unused mydb [student1; student1] fresh_world). Defined.





Lemma insert_server self insert_data ordered w :
  insert_data ≠ [] →
  server (MyMongodb.insert self insert_data ordered w).2 =
  <[coll_db (MyMongodb.collection self) :=
      <[coll_name (MyMongodb.collection self) :=
          docs_of (MyMongodb.collection self) w ++ remove_duplicates insert_data]>
        (default ∅ (server w !! coll_db (MyMongodb.collection self)))]> (server w).
Proof.
  intros Hne. rewrite insert_run.
  destruct (remove_duplicates insert_data) as [|d data] eqn:Hdata; [|done].
  by apply remove_duplicates_nil_inv in Hdata.
Qed.

(** X11. Writing creates what is missing: after [insert] of a list that is
    not empty, the server has the accessor's database and, in it, the
    accessor's collection; constructing an accessor for them afterwards logs
    no warning about the database. *)
Theorem insert_creates self insert_data ordered host port w :
  insert_data ≠ [] →
  coll_db (MyMongodb.collection self) ≠ "" →
  coll_name (MyMongodb.collection self) ≠ "" →
  (∃ colls,
     server (MyMongodb.insert self insert_data ordered w).2
       !! coll_db (MyMongodb.collection self) = Some colls ∧
     is_Some (colls !! coll_name (MyMongodb.collection self))) ∧
  ¬ database_warning_call (coll_db (MyMongodb.collection self)) ∈
    drop (length (log (MyMongodb.insert self insert_data ordered w).2))
      (log (MyMongodb.__init__ host port
              (Some (coll_db (MyMongodb.collection self)))
              (Some (coll_name (MyMongodb.collection self)))
              (MyMongodb.insert self insert_data ordered w).2).2).
Proof.
  intros Hne Hdb Hname.
  assert (∃ colls,
     server (MyMongodb.insert self insert_data ordered w).2
       !! coll_db (MyMongodb.collection self) = Some colls ∧
     is_Some (colls !! coll_name (MyMongodb.collection self))) as Hthere.
  { rewrite insert_server by done. rewrite lookup_insert_eq.
    eexists. split; [done|]. rewrite lookup_insert_eq. by eexists. }
  split; [done|].
  rewrite init_database_warned by done.
  destruct Hthere as (colls & -> & _). done.
Qed.

Lemma insert_creates_witness :
  ∃ colls,
    server (MyMongodb.insert mydb [student1; student2] false fresh_world).2 !! "local" =
      Some colls ∧
    is_Some (colls !! "students").
Proof.
  by apply (insert_creates mydb [student1; student2] false "localhost" 27017 fresh_world).
Defined.

(** * Further properties of finding *)

(** X12. A negative [skip_num] is refused by the driver: [find_data] raises
    [ValueError] whatever its other arguments are.  By then the cursor has
    been made and given its limit, but the query is never sent. *)
Theorem find_data_negative_skip self key v optional limit_num skip_num w :
  skip_num < 0 →
  MyMongodb.find_data self key v optional limit_num skip_num w =
  (Raised ValueError,
   World (server w)
     (cursors w ++
      [Cursor (MyMongodb.collection self) (find_data_filter key v optional) limit_num 0 None])
     (calls w ++
      [CallFind (MyMongodb.collection self) (find_data_filter key v optional);
       CallLimit (length (cursors w)) limit_num;
       CallSkip (length (cursors w)) skip_num])
     (log w)).
Proof.
  intros Hneg. rewrite find_data_run. cbv zeta.
  by destruct (Z.ltb_spec skip_num 0); [|lia].
Qed.

Lemma find_data_negative_skip_witness :
  (MyMongodb.find_data mydb "age" (VInt 20) None 2 (-1) class_world).1 = Raised ValueError.
Proof.
  by rewrite (find_data_negative_skip mydb "age" (VInt 20) None 2 (-1) class_world).
Defined.

(** X13. [find_data] never writes: whatever the arguments, and whether it
    returns or raises, the server and the log are as before, the cursors
    that existed are untouched, and exactly one cursor is added. *)
Theorem find_data_read_only self key v optional limit_num skip_num w :
  server (MyMongodb.find_data self key v optional limit_num skip_num w).2 = server w ∧
  log (MyMongodb.find_data self key v optional limit_num skip_num w).2 = log w ∧
  ∃ c, cursors (MyMongodb.find_data self key v optional limit_num skip_num w).2 =
       cursors w ++ [c].
Proof.
  rewrite find_data_run. cbv zeta.
  destruct (skip_num <? 0); [|destruct (Query.filter_ok _)];
    (split_and!; [done|done|by eexists]).
Qed.

Lemma window_length limit_num skip_num (ds : list document) :
  (length (Pymongo.window limit_num skip_num ds) ≤ length ds - Z.to_nat skip_num)%nat ∧
  (limit_num ≠ 0 →
   Z.of_nat (length (Pymongo.window limit_num skip_num ds)) ≤ Z.abs limit_num).
Proof.
  unfold Pymongo.window. destruct (Z.eqb_spec limit_num 0) as [->|Hlimit].
  - rewrite length_drop. split; [lia|done].
  - rewrite length_take, length_drop. split; lia.
Qed.

Lemma filter_length_le {B} (p : B → bool) (l : list B) :
  (length (List.filter p l) ≤ length l)%nat.
Proof. induction l as [|x l IH]; cbn; [done|]. destruct (p x); cbn; lia. Qed.

(** X14. The count [find_data] returns is bounded: it is at most the number
    of matching records left after the skip, at most the size of the
    collection, and, unless [limit_num] is 0, at most the limit. *)
Theorem find_data_count_bounds self key v optional limit_num skip_num w cur n w' :
  MyMongodb.find_data self key v optional limit_num skip_num w = (Returned (cur, n), w') →
  (n ≤ length (matching (MyMongodb.collection self) (find_data_filter key v optional) w)
       - Z.to_nat skip_num)%nat ∧
  (n ≤ length (docs_of (MyMongodb.collection self) w))%nat ∧
  (limit_num ≠ 0 → Z.of_nat n ≤ Z.abs limit_num).
Proof.
  rewrite find_data_run. cbv zeta.
  destruct (skip_num <? 0); [done|]. destruct (Query.filter_ok _); [|done].
  intros [= <- <- <-]. rewrite answer_page. unfold page.
  destruct (window_length limit_num skip_num
              (matching (MyMongodb.collection self) (find_data_filter key v optional) w))
    as [Hskip Hlimit].
  split_and!; [done| |done].
  pose proof (filter_length_le (Query.matches (find_data_filter key v optional))
                (docs_of (MyMongodb.collection self) w)) as Hle.
  unfold matching in *. lia.
Qed.

Lemma find_data_count_bounds_witness :
  ∃ cur n w',
    MyMongodb.find_data mydb "age" (VInt 20) (Some "$gt") 2 1 five_world =
      (Returned (cur, n), w') ∧
    Z.of_nat n ≤ 2.
Proof.
  eexists _, _, _. split; [by apply find_data_returns|].
  eapply (find_data_count_bounds mydb "age" (VInt 20) (Some "$gt") 2 1 five_world);
    [by apply find_data_returns|done].
Defined.

Lemma take_take_drop {B} (l : list B) (n m : nat) :
  take n l ++ take m (drop n l) = take (n + m) l.
Proof.
  revert l. induction n as [|n IH]; intros [|x l]; cbn; try done.
  - by rewrite take_nil.
  - by rewrite IH.
Qed.

Lemma window_app limit1 limit2 skip_num (ds : list document) :
  0 < limit1 → 0 < limit2 → 0 ≤ skip_num →
  Pymongo.window limit1 skip_num ds ++ Pymongo.window limit2 (skip_num + limit1) ds =
  Pymongo.window (limit1 + limit2) skip_num ds.
Proof.
  intros H1 H2 Hs. rewrite !window_positive by lia.
  replace (Z.to_nat (skip_num + limit1)) with (Z.to_nat skip_num + Z.to_nat limit1)%nat
    by lia.
  rewrite <- drop_drop, take_take_drop. f_equal. lia.
Qed.

(** X15. Pages follow one another.  On an unchanged collection, the page of
    [limit1] records after [skip_num] and the page of [limit2] records after
    [skip_num + limit1] are, one after the other, the page of
    [limit1 + limit2] records after [skip_num]; the counts add up. *)
Theorem find_data_pages_compose self key v optional limit1 limit2 skip_num w1 w2 w3 :
  0 < limit1 → 0 < limit2 → 0 ≤ skip_num →
  Query.filter_ok (find_data_filter key v optional) = true →
  server w2 = server w1 → server w3 = server w1 →
  ∃ cur1 w1' cur2 w2' cur3 w3' page1 page2,
    MyMongodb.find_data self key v optional limit1 skip_num w1 =
      (Returned (cur1, length page1), w1') ∧
    MyMongodb.find_data self key v optional limit2 (skip_num + limit1) w2 =
      (Returned (cur2, length page2), w2') ∧
    MyMongodb.find_data self key v optional (limit1 + limit2) skip_num w3 =
      (Returned (cur3, (length page1 + length page2)%nat), w3') ∧
    ((c ← Pymongo.clone cur1; Pymongo.list_ c) w1').1 = Returned page1 ∧
    ((c ← Pymongo.clone cur2; Pymongo.list_ c) w2').1 = Returned page2 ∧
    ((c ← Pymongo.clone cur3; Pymongo.list_ c) w3').1 = Returned (page1 ++ page2).
Proof.
  intros H1 H2 Hs Hok Hw2 Hw3.
  destruct (find_data_page self key v optional limit1 skip_num w1)
    as (cur1 & w1' & Hrun1 & Hclone1); [done..|].
  destruct (find_data_page self key v optional limit2 (skip_num + limit1) w2)
    as (cur2 & w2' & Hrun2 & Hclone2); [lia|done|].
  destruct (find_data_page self key v optional (limit1 + limit2) skip_num w3)
    as (cur3 & w3' & Hrun3 & Hclone3); [done..|].
  assert (∀ l s w, server w = server w1 →
            page (MyMongodb.collection self) (find_data_filter key v optional) l s w =
            page (MyMongodb.collection self) (find_data_filter key v optional) l s w1)
    as Hsame.
  { intros l s w Hw. unfold page, matching, docs_of. by rewrite Hw. }
  rewrite Hsame in Hrun2, Hclone2, Hrun3, Hclone3 by done.
  unfold page in Hrun3, Hclone3. rewrite <- window_app in Hrun3, Hclone3 by done.
  rewrite length_app in Hrun3.
  by eexists cur1, w1', cur2, w2', cur3, w3', _, _.
Qed.

Lemma find_data_pages_compose_witness :
  ∃ cur w' page1 page2,
    MyMongodb.find_data mydb "age" (VInt 20) (Some "$gt") (1 + 2) 1 five_world =
      (Returned (cur, (length page1 + length page2)%nat), w') ∧
    ((c ← Pymongo.clone cur; Pymongo.list_ c) w').1 = Returned (page1 ++ page2).
Proof.
  destruct (find_data_pages_compose mydb "age" (VInt 20) (Some "$gt") 1 2 1
              five_world five_world five_world)
    as (_ & _ & _ & _ & cur3 & w3' & page1 & page2 & _ & _ & Hrun3 & _ & _ & Hclone3);
    [done..|].
  by exists cur3, w3', page1, page2.
Defined.

Lemma filter_none {B} (p : B → bool) (l : list B) :
  (∀ x, x ∈ l → p x = false) → List.filter p l = [].
Proof.
  induction l as [|x l IH]; cbn; [done|]. intros Hall.
  rewrite (Hall x) by by left. apply IH. intros y Hy. apply Hall. by right.
Qed.

Lemma window_nil limit_num skip_num : Pymongo.window limit_num skip_num [] = [].
Proof.
  unfold Pymongo.window. rewrite drop_nil. destruct (limit_num =? 0); [done|].
  by rewrite take_nil.
Qed.

(** X16. An operator token written without its dollar sign is not an
    operator: [{key: {operator: value}}] then asks for a field equal to the
    nested mapping, which no record with integer and text fields has, and
    [find_data] returns a count of 0 whatever the collection holds. *)
Theorem find_data_operator_without_dollar self key v operator limit_num skip_num w :
  operator ≠ "" → Query.is_operator operator = false →
  Query.is_operator key = false → 0 ≤ skip_num →
  ∃ cur w',
    MyMongodb.find_data self key v (Some operator) limit_num skip_num w =
      (Returned (cur, 0%nat), w').
Proof.
  intros Hop Hplain Hkey Hskip.
  pose proof (find_data_filter_operator key v operator Hop) as Hfilter.
  destruct (find_data_page self key v (Some operator) limit_num skip_num w)
    as (cur & w' & Hrun & _); [done| |].
  { rewrite Hfilter. cbn. by rewrite Hkey, Hplain. }
  exists cur, w'. rewrite Hrun. repeat f_equal.
  unfold page, matching. rewrite filter_none; [by rewrite window_nil|].
  intros d _. rewrite Hfilter. cbn. by rewrite Hplain.
Qed.

Lemma find_data_operator_without_dollar_witness :
  ∃ cur w',
    MyMongodb.find_data mydb "age" (VInt 20) (Some "gt")
      MyMongodb.default_limit_num MyMongodb.default_skip_num class_world =
      (Returned (cur, 0%nat), w').
Proof.
  by apply (find_data_operator_without_dollar mydb "age" (VInt 20) "gt").
Defined.

(** * Further properties of deleting and updating *)

Lemma log_replaced coll ds w : log (Pymongo.replaced coll ds w) = log w.
Proof. unfold Pymongo.replaced. by case_decide. Qed.

Lemma cursors_replaced coll ds w : cursors (Pymongo.replaced coll ds w) = cursors w.
Proof. unfold Pymongo.replaced. by case_decide. Qed.

Lemma docs_of_replaced_ne coll coll' ds w :
  coll' ≠ coll → docs_of coll' (Pymongo.replaced coll ds w) = docs_of coll' w.
Proof.
  intros Hne. unfold Pymongo.replaced. case_decide; [done|].
  by apply docs_of_set_docs_ne.
Qed.

Lemma filter_length_split {B} (p : B → bool) (l : list B) :
  (length (List.filter p l) + length (List.filter (λ x, negb (p x)) l) = length l)%nat.
Proof. induction l as [|x l IH]; cbn; [done|]. destruct (p x); cbn; lia. Qed.

(** X17. [delete] reports what it did: with scope [all] or [single] and a
    filter the server accepts, it returns normally and logs one line, with
    the number of records that are gone from the collection; for [all] this
    is the number of records that matched. *)
Theorem delete_reports_count self f impact w :
  impact = "all" ∨ impact = "single" → Query.filter_ok f = true →
  ∃ gone,
    (MyMongodb.delete self f impact w).1 = Returned () ∧
    log (MyMongodb.delete self f impact w).2 = log w ++ [deleted_call gone] ∧
    gone =
      Z.of_nat (length (docs_of (MyMongodb.collection self) w)) -
      Z.of_nat (length (docs_of (MyMongodb.collection self)
                          (MyMongodb.delete self f impact w).2)) ∧
    (impact = "all" →
     gone = Z.of_nat (length (matching (MyMongodb.collection self) f w))) ∧
    Logging.emitted [deleted_call gone] =
      [(Logging.INFO,
        [Logging.Text "Successfully matched and deleted ";
         Logging.Shown (Logging.AInt gone); Logging.Text " data."])].
Proof.
  intros Himpact Hok. rewrite delete_run. cbv zeta.
  destruct Himpact as [-> | ->]; cbn [String.eqb Ascii.eqb Bool.eqb]; rewrite Hok.
  - eexists. split_and!; [done| | |intros _|done].
    + cbn [snd add_log log]. by rewrite log_replaced.
    + cbn [snd]. by rewrite docs_of_add_log, docs_of_replaced.
    + unfold Pymongo.count_removed, matching.
      pose proof (filter_length_split (Query.matches f)
                    (docs_of (MyMongodb.collection self) w)). lia.
  - eexists. split_and!; [done| | |intros [=]|done].
    + cbn [snd add_log log]. by rewrite log_replaced.
    + cbn [snd]. by rewrite docs_of_add_log, docs_of_replaced.
Qed.

Lemma delete_reports_count_witness :
  ∃ gone,
    log (MyMongodb.delete mydb under_twenty "all" class_world).2 = [deleted_call gone] ∧
    gone = Z.of_nat (length (matching students under_twenty class_world)).
Proof.
  destruct (delete_reports_count mydb under_twenty "all" class_world)
    as (gone & _ & Hlog & _ & Hgone & _); [by left|done|].
  exists gone. split; [exact Hlog|by apply Hgone].
Defined.

Lemma remove_first_app (p : document → bool) l1 d l2 :
  Forall (λ x, p x = false) l1 → p d = true →
  Pymongo.remove_first p (l1 ++ d :: l2) = l1 ++ l2.
Proof.
  intros Hl1 Hd. induction Hl1 as [|x l1 Hx _ IH]; cbn.
  - by rewrite Hd.
  - by rewrite Hx, IH.
Qed.

(** X18. With scope [single], on a filter the server accepts, [delete]
    removes the first matching record in natural order and nothing else. *)
Theorem delete_single_first self f w l1 d l2 :
  Query.filter_ok f = true →
  docs_of (MyMongodb.collection self) w = l1 ++ d :: l2 →
  Forall (λ x, Query.matches f x = false) l1 → Query.matches f d = true →
  docs_of (MyMongodb.collection self) (MyMongodb.delete self f "single" w).2 = l1 ++ l2.
Proof.
  intros Hok Hdocs Hl1 Hd. rewrite delete_single_docs, Hok, Hdocs.
  by apply remove_first_app.
Qed.

Lemma delete_single_first_witness :
  docs_of students (MyMongodb.delete mydb under_twenty "single" class_world).2 =
  [student1] ++ [].
Proof.
  apply (delete_single_first mydb under_twenty class_world [student1] student2 []);
    [done|done| |done].
  by constructor.
Defined.

Lemma filter_filter_negb {B} (p : B → bool) (l : list B) :
  List.filter p (List.filter (λ x, negb (p x)) l) = [].
Proof.
  apply filter_none. intros x [_ Hx]%list_elem_of_In%filter_In.
  by apply negb_true_iff.
Qed.

(** X19. What is deleted is not found: after [delete] with scope [all] and
    the filter that [find_data] builds from a key, a value and an operator,
    [find_data] with the same key, value and operator returns a count
    of 0. *)
Theorem delete_all_then_find self key v optional limit_num skip_num w :
  Query.filter_ok (find_data_filter key v optional) = true → 0 ≤ skip_num →
  ∃ cur w',
    MyMongodb.find_data self key v optional limit_num skip_num
      (MyMongodb.delete self (find_data_filter key v optional) "all" w).2 =
      (Returned (cur, 0%nat), w').
Proof.
  intros Hok Hskip.
  set (w1 := (MyMongodb.delete self (find_data_filter key v optional) "all" w).2).
  destruct (find_data_page self key v optional limit_num skip_num w1)
    as (cur & w' & Hrun & _); [done..|].
  exists cur, w'. rewrite Hrun. repeat f_equal.
  unfold page, matching, w1. rewrite delete_all_docs, Hok.
  by rewrite filter_filter_negb, window_nil.
Qed.

Lemma delete_all_then_find_witness :
  ∃ cur w',
    MyMongodb.find_data mydb "age" (VInt 20) (Some "$gt")
      MyMongodb.default_limit_num MyMongodb.default_skip_num
      (MyMongodb.delete mydb over_twenty "all" class_world).2 =
      (Returned (cur, 0%nat), w').
Proof.
  by apply (delete_all_then_find mydb "age" (VInt 20) (Some "$gt")).
Defined.

Lemma update_each_length (p : document → bool) (u : update_doc) ds :
  length (Pymongo.update_each p u ds).1 = length ds.
Proof.
  induction ds as [|d ds IH]; cbn; [done|].
  destruct (p d); [destruct (u d)|]; try done;
    destruct (Pymongo.update_each p u ds); cbn in *; by rewrite IH.
Qed.

Lemma update_first_length (p : document → bool) (u : update_doc) ds ds' r :
  Pymongo.update_first p u ds = Some (ds', r) → length ds' = length ds.
Proof.
  revert ds' r. induction ds as [|d ds IH]; cbn; intros ds' r H.
  - by simplify_eq.
  - destruct (p d).
    + destruct (u d); by simplify_eq.
    + destruct (Pymongo.update_first p u ds) as [[ds0 r0]|]; simplify_eq.
      cbn. by rewrite (IH _ _ eq_refl).
Qed.

Lemma remove_first_sublist (p : document → bool) ds :
  sublist (Pymongo.remove_first p ds) ds.
Proof.
  induction ds as [|d ds IH]; cbn; [done|]. destruct (p d).
  - by apply sublist_cons.
  - by apply sublist_skip.
Qed.

Lemma list_filter_sublist {B} (p : B → bool) (l : list B) :
  sublist (List.filter p l) l.
Proof.
  induction l as [|x l IH]; cbn; [done|]. destruct (p x).
  - by apply sublist_skip.
  - by apply sublist_cons.
Qed.

(** X20. [update] never adds or removes a record: whatever the arguments,
    and whether it returns or raises, the collection holds as many records
    afterwards as before. *)
Theorem update_keeps_count self f u impact w :
  length (docs_of (MyMongodb.collection self) (MyMongodb.update self f u impact w).2) =
  length (docs_of (MyMongodb.collection self) w).
Proof.
  destruct (String.eqb_spec impact "all") as [->|Hall].
  { rewrite update_all_docs. destruct (Query.filter_ok f); [|done].
    apply update_each_length. }
  destruct (String.eqb_spec impact "single") as [->|Hsingle].
  { rewrite update_single_docs. destruct (Query.filter_ok f); [|done].
    destruct (Pymongo.update_first _ _ _) as [[ds r]|] eqn:Hfirst; [|done].
    by apply update_first_length in Hfirst. }
  rewrite update_run. cbv zeta.
  apply String.eqb_neq in Hall, Hsingle. by rewrite Hall, Hsingle.
Qed.

(** X21. [delete] only takes records away: whatever the arguments, the
    records of the collection afterwards are records it held before, in the
    same order; none is added, changed or moved. *)
Theorem delete_only_removes self f impact w :
  sublist (docs_of (MyMongodb.collection self) (MyMongodb.delete self f impact w).2)
    (docs_of (MyMongodb.collection self) w).
Proof.
  destruct (String.eqb_spec impact "all") as [->|Hall].
  { rewrite delete_all_docs. destruct (Query.filter_ok f); [|done].
    apply list_filter_sublist. }
  destruct (String.eqb_spec impact "single") as [->|Hsingle].
  { rewrite delete_single_docs. destruct (Query.filter_ok f); [|done].
    apply remove_first_sublist. }
  rewrite delete_run. cbv zeta.
  apply String.eqb_neq in Hall, Hsingle. by rewrite Hall, Hsingle.
Qed.

(** X22. [delete] and [update] write to the accessor's collection only:
    whatever the arguments, every other collection holds the records it
    held, and no cursor is made or changed. *)
Theorem delete_update_frame self f u impact w coll' :
  coll' ≠ MyMongodb.collection self →
  (docs_of coll' (MyMongodb.delete self f impact w).2 = docs_of coll' w ∧
   cursors (MyMongodb.delete self f impact w).2 = cursors w) ∧
  (docs_of coll' (MyMongodb.update self f u impact w).2 = docs_of coll' w ∧
   cursors (MyMongodb.update self f u impact w).2 = cursors w).
Proof.
  intros Hne. rewrite delete_run, update_run. cbv zeta.
  destruct (String.eqb impact "all"); [|destruct (String.eqb impact "single")];
    destruct (Query.filter_ok f);
    try destruct (Pymongo.update_each _ _ _) as [ds [r|]];
    try destruct (Pymongo.update_first _ _ _) as [[ds r]|];
    cbn [snd]; rewrite ?docs_of_add_log, ?docs_of_replaced_ne by done;
    cbn [add_log cursors]; rewrite ?cursors_replaced; done.
Qed.

Lemma delete_update_frame_witness :
  docs_of (Collection "local" "teachers")
    (MyMongodb.delete mydb under_twenty "all" class_world).2 = [].
Proof.
  by apply (delete_update_frame mydb under_twenty set_age_one "all" class_world
              (Collection "local" "teachers")).
Defined.

(** X23. An exception of the driver passes through [delete] and [update]
    with nothing logged: the methods log only after the driver has
    returned. *)
Theorem delete_update_raise_silent self f u impact w e :
  ((MyMongodb.delete self f impact w).1 = Raised e →
   log (MyMongodb.delete self f impact w).2 = log w) ∧
  ((MyMongodb.update self f u impact w).1 = Raised e →
   log (MyMongodb.update self f u impact w).2 = log w).
Proof.
  rewrite delete_run, update_run. cbv zeta.
  destruct (String.eqb impact "all"); [|destruct (String.eqb impact "single")];
    destruct (Query.filter_ok f);
    try destruct (Pymongo.update_each _ _ _) as [ds [r|]];
    try destruct (Pymongo.update_first _ _ _) as [[ds r]|];
    cbn [fst snd]; split; try done; intros _; by rewrite log_replaced.
Qed.

Lemma delete_update_raise_silent_witness :
  log (MyMongodb.delete mydb [("age", CDoc [("$above", VInt 1)])] "all" class_world).2 = [].
Proof.
  by apply (delete_update_raise_silent mydb [("age", CDoc [("$above", VInt 1)])]
              set_age_one "all" class_world OperationFailure).
Defined.

(** * Sorting

    [sort_data] clones the cursor it is given and sets an ordering on the
    clone.  The ordering is an attribute of the cursor object; it is kept
    here in a table beside the world, from cursors to orderings.  What the
    server makes of an ordering once the query is sent is not modelled. *)

Definition ordering : Type := list (string * Z).

Record sorting_world : Type := SortingWorld {
  plain : world;
  orderings : gmap nat ordering
}.

Definition spy (A : Type) : Type := sorting_world → outcome A * sorting_world.

#[global] Instance spy_ret : MRet spy := λ A a sw, (Returned a, sw).
#[global] Instance spy_bind : MBind spy := λ A B f m sw,
  match m sw with
  | (Returned a, sw') => f a sw'
  | (Raised e, sw') => (Raised e, sw')
  end.

(** The key of [sort_data]: a field name, or a list of pairs of a field
    name and a direction. *)
Inductive sort_key : Type :=
| KeyName (name : string)
| KeyList (pairs : ordering).

Module Ordered.

Definition lift {A : Type} (m : py A) : spy A :=
  λ sw, let (r, w') := m (plain sw) in (r, SortingWorld w' (orderings sw)).

Definition raise {A : Type} (e : exn) : spy A := λ sw, (Raised e, sw).
Definition get_orderings : spy (gmap nat ordering) := λ sw, (Returned (orderings sw), sw).
Definition modify_orderings (f : gmap nat ordering → gmap nat ordering) : spy unit :=
  λ sw, (Returned (), SortingWorld (plain sw) (f (orderings sw))).

(** [cursor.clone()]: the clone has the ordering of the original. *)
Definition clone (cur : nat) : spy nat :=
  c2 ← lift (Pymongo.clone cur);
  os ← get_orderings;
  match os !! cur with
  | Some o => modify_orderings <[c2 := o]>;; mret c2
  | None => mret c2
  end.

(** The ordering the driver keeps for a list of pairs: a key stands where
    it stood first and has the direction given last. *)
Fixpoint set_direction (k : string) (d : Z) (o : ordering) : ordering :=
  match o with
  | [] => [(k, d)]
  | (k', d') :: o' =>
      if String.eqb k k' then (k, d) :: o' else (k', d') :: set_direction k d o'
  end.

Definition index_document (keys : ordering) : ordering :=
  foldl (λ o kd, set_direction kd.1 kd.2 o) [] keys.

(** [cursor.sort(...)]: refused once the query has been sent, and for an
    empty list of keys; returns the cursor itself. *)
Definition sort (cur : nat) (keys : ordering) : spy nat :=
  c ← lift (Pymongo.deref cur);
  match cur_buffer c with
  | Some _ => raise InvalidOperation
  | None =>
      match keys with
      | [] => raise ValueError
      | _ :: _ => modify_orderings <[cur := index_document keys]>;; mret cur
      end
  end.

(** [sort_data(sorted_data, key, rule=1)], a static method. *)
Definition sort_data (sorted_data : nat) (key : sort_key) (rule : Z) : spy nat :=
  sorted_data ← clone sorted_data;
  match key with
  | KeyName name => sort sorted_data [(name, rule)]
  | KeyList pairs => sort sorted_data pairs
  end.

(** The script at the end of the file. *)
Definition main : spy unit :=
  mydb ← lift (MyMongodb.__init__ "localhost" 27017 (Some "local") (Some "students"));
  lift (MyMongodb.insert mydb [student1; student2] false);;
  found ← lift (MyMongodb.find_data mydb "name" (VStr "Jordan") None
                  MyMongodb.default_limit_num MyMongodb.default_skip_num);
  sort_data found.1 (KeyName "name") 1;;
  mret ().

End Ordered.

(** The keys [sort_data] hands to [sort]. *)
Definition sort_keys (key : sort_key) (rule : Z) : ordering :=
  match key with
  | KeyName name => [(name, rule)]
  | KeyList pairs => pairs
  end.

Lemma sbind_returned {A B} (m : spy A) (k : A → spy B) sw a sw' :
  m sw = (Returned a, sw') → (m ≫= k) sw = k a sw'.
Proof. intros H. unfold mbind, spy_bind. by rewrite H. Qed.

Lemma sbind_raised {A B} (m : spy A) (k : A → spy B) sw e sw' :
  m sw = (Raised e, sw') → (m ≫= k) sw = (Raised e, sw').
Proof. intros H. unfold mbind, spy_bind. by rewrite H. Qed.

Lemma lift_run {A} (m : py A) sw r w' :
  m (plain sw) = (r, w') → Ordered.lift m sw = (r, SortingWorld w' (orderings sw)).
Proof. intros H. unfold Ordered.lift. by rewrite H. Qed.

Lemma deref_run cur c w : cursors w !! cur = Some c → Pymongo.deref cur w = (Returned c, w).
Proof. intros Hc. unfold Pymongo.deref. py_run. rewrite Hc. by py_run. Qed.

Lemma sorting_world_eta sw : SortingWorld (plain sw) (orderings sw) = sw.
Proof. by destruct sw. Qed.

Lemma ordered_clone_run cur c sw :
  cursors (plain sw) !! cur = Some c →
  Ordered.clone cur sw =
  (Returned (length (cursors (plain sw))),
   SortingWorld
     (World (server (plain sw)) (cursors (plain sw) ++ [Pymongo.set_buffer None c])
        (calls (plain sw) ++ [CallClone cur]) (log (plain sw)))
     (match orderings sw !! cur with
      | Some o => <[length (cursors (plain sw)) := o]> (orderings sw)
      | None => orderings sw
      end)).
Proof.
  intros Hc. unfold Ordered.clone.
  erewrite sbind_returned by (apply lift_run; by apply clone_run).
  unfold Ordered.get_orderings, Ordered.modify_orderings, mbind, spy_bind, mret, spy_ret.
  cbn [orderings plain]. by destruct (orderings sw !! cur).
Qed.

Lemma ordered_sort_run cur c keys sw :
  cursors (plain sw) !! cur = Some c → cur_buffer c = None → keys ≠ [] →
  Ordered.sort cur keys sw =
  (Returned cur,
   SortingWorld (plain sw) (<[cur := Ordered.index_document keys]> (orderings sw))).
Proof.
  intros Hc Hb Hkeys. unfold Ordered.sort.
  erewrite sbind_returned by (apply lift_run; by apply deref_run).
  rewrite Hb. by destruct keys.
Qed.

Lemma ordered_sort_sent cur c rest keys sw :
  cursors (plain sw) !! cur = Some c → cur_buffer c = Some rest →
  Ordered.sort cur keys sw = (Raised InvalidOperation, sw).
Proof.
  intros Hc Hb. unfold Ordered.sort.
  erewrite sbind_returned by (apply lift_run; by apply deref_run).
  rewrite Hb. unfold Ordered.raise. by rewrite sorting_world_eta.
Qed.

Lemma ordered_sort_empty cur c sw :
  cursors (plain sw) !! cur = Some c → cur_buffer c = None →
  Ordered.sort cur [] sw = (Raised ValueError, sw).
Proof.
  intros Hc Hb. unfold Ordered.sort.
  erewrite sbind_returned by (apply lift_run; by apply deref_run).
  rewrite Hb. unfold Ordered.raise. by rewrite sorting_world_eta.
Qed.

Lemma sort_data_unfold cur key rule sw :
  Ordered.sort_data cur key rule sw =
  (c2 ← Ordered.clone cur; Ordered.sort c2 (sort_keys key rule)) sw.
Proof. unfold Ordered.sort_data. by destruct key. Qed.

(** What [sort_data] returns and leaves, for a cursor that exists and keys
    that are not empty. *)
Lemma sort_data_run cur c key rule sw :
  cursors (plain sw) !! cur = Some c → sort_keys key rule ≠ [] →
  Ordered.sort_data cur key rule sw =
  (Returned (length (cursors (plain sw))),
   SortingWorld
     (World (server (plain sw)) (cursors (plain sw) ++ [Pymongo.set_buffer None c])
        (calls (plain sw) ++ [CallClone cur]) (log (plain sw)))
     (<[length (cursors (plain sw)) := Ordered.index_document (sort_keys key rule)]>
        (orderings sw))).
Proof.
  intros Hc Hkeys. rewrite sort_data_unfold.
  erewrite sbind_returned by (by apply ordered_clone_run).
  rewrite (ordered_sort_run _ (Pymongo.set_buffer None c)); [| |done|done].
  2:{ cbn [plain cursors]. by apply list_lookup_middle. }
  cbn [plain orderings]. f_equal. f_equal.
  destruct (orderings sw !! cur); [|done]. by rewrite insert_insert_eq.
Qed.

(** X24. [sort_data] works on a copy: for a cursor that exists, read or
    not, and keys that are not empty, it returns a new cursor for the same
    query, not sent yet, that carries the ordering; the cursor it was given
    is as it was, with the ordering it had, and the server is untouched. *)
Theorem sort_data_keeps_original cur c key rule sw :
  cursors (plain sw) !! cur = Some c → sort_keys key rule ≠ [] →
  ∃ new sw',
    Ordered.sort_data cur key rule sw = (Returned new, sw') ∧
    new ≠ cur ∧
    cursors (plain sw') !! cur = Some c ∧
    orderings sw' !! cur = orderings sw !! cur ∧
    cursors (plain sw') !! new = Some (Pymongo.set_buffer None c) ∧
    orderings sw' !! new = Some (Ordered.index_document (sort_keys key rule)) ∧
    server (plain sw') = server (plain sw).
Proof.
  intros Hc Hkeys. eexists _, _. split; [by apply sort_data_run|].
  pose proof (lookup_lt_Some _ _ _ Hc) as Hlt.
  cbn [plain orderings cursors server]. split_and!.
  - lia.
  - by rewrite lookup_app_l.
  - rewrite lookup_insert_ne by lia. done.
  - by apply list_lookup_middle.
  - by rewrite lookup_insert_eq.
  - done.
Qed.

(** A world in which the cursor of a query has been read to its end. *)
Definition read_world : sorting_world :=
  SortingWorld
    (World (server class_world) [Cursor students over_twenty 0 0 (Some [])] [] []) ∅.

Lemma sort_data_keeps_original_witness :
  ∃ new sw',
    Ordered.sort_data 0 (KeyName "name") 1 read_world = (Returned new, sw') ∧
    cursors (plain sw') !! 0%nat = Some (Cursor students over_twenty 0 0 (Some [])) ∧
    cursors (plain sw') !! new = Some (Cursor students over_twenty 0 0 None).
Proof.
  destruct (sort_data_keeps_original 0 (Cursor students over_twenty 0 0 (Some []))
              (KeyName "name") 1 read_world)
    as (new & sw' & Hrun & _ & Hold & _ & Hnew & _); [done|done|].
  by exists new, sw'.
Defined.

(** X25. The cursor [find_data] returns has been read, so the driver
    refuses to sort it; [sort_data], which sorts a clone, succeeds on it. *)
Theorem find_then_sort self key v optional limit_num skip_num sort_by rule sw :
  0 ≤ skip_num → Query.filter_ok (find_data_filter key v optional) = true →
  sort_keys sort_by rule ≠ [] →
  ((found ← Ordered.lift (MyMongodb.find_data self key v optional limit_num skip_num);
    Ordered.sort found.1 (sort_keys sort_by rule)) sw).1 = Raised InvalidOperation ∧
  ((found ← Ordered.lift (MyMongodb.find_data self key v optional limit_num skip_num);
    Ordered.sort_data found.1 sort_by rule) sw).1 =
    Returned (S (length (cursors (plain sw)))).
Proof.
  intros Hskip Hok Hkeys.
  set (spent := Cursor (MyMongodb.collection self) (find_data_filter key v optional)
                  limit_num skip_num (Some [])).
  split.
  - erewrite sbind_returned by (apply lift_run; by apply find_data_returns).
    cbn [fst]. rewrite (ordered_sort_sent _ spent []); [done| |done].
    cbn [plain cursors]. by apply list_lookup_middle.
  - erewrite sbind_returned by (apply lift_run; by apply find_data_returns).
    cbn [fst]. rewrite (sort_data_run _ spent); [| |done].
    + cbn [fst plain cursors]. rewrite length_app. cbn. f_equal. lia.
    + cbn [plain cursors]. by apply list_lookup_middle.
Qed.

Lemma find_then_sort_witness :
  ((found ← Ordered.lift (MyMongodb.find_data mydb "name" (VStr "Jordan") None
                            MyMongodb.default_limit_num MyMongodb.default_skip_num);
    Ordered.sort_data found.1 (KeyName "name") 1) (SortingWorld class_world ∅)).1 =
  Returned 1%nat.
Proof.
  by apply (find_then_sort mydb "name" (VStr "Jordan") None
              MyMongodb.default_limit_num MyMongodb.default_skip_num
              (KeyName "name") 1 (SortingWorld class_world ∅)).
Defined.

(** X26. An empty list of keys is refused by the driver: [sort_data] raises
    [ValueError], after the clone has been made. *)
Theorem sort_data_empty_keys cur c rule sw :
  cursors (plain sw) !! cur = Some c →
  (Ordered.sort_data cur (KeyList []) rule sw).1 = Raised ValueError ∧
  cursors (plain (Ordered.sort_data cur (KeyList []) rule sw).2) =
    cursors (plain sw) ++ [Pymongo.set_buffer None c].
Proof.
  intros Hc. rewrite sort_data_unfold.
  erewrite sbind_returned by (by apply ordered_clone_run).
  rewrite (ordered_sort_empty _ (Pymongo.set_buffer None c)); [done| |done].
  cbn [plain cursors]. by apply list_lookup_middle.
Qed.

Lemma sort_data_empty_keys_witness :
  (Ordered.sort_data 0 (KeyList []) 1 read_world).1 = Raised ValueError.
Proof.
  by apply (sort_data_empty_keys 0 (Cursor students over_twenty 0 0 (Some [])) 1 read_world).
Defined.

(** * The script *)

Lemma students_distinct : remove_duplicates [student1; student2] = [student1; student2].
Proof. by vm_compute. Qed.

Lemma init_script w :
  ∃ new_calls new_log,
    MyMongodb.__init__ "localhost" 27017 (Some "local") (Some "students") w =
    (Returned mydb,
     World (server w) (cursors w) (calls w ++ new_calls)
       (log w ++ connected_call :: new_log)).
Proof.
  destruct (init_world "localhost" 27017 (Some "local") (Some "students") w)
    as (cs & ls & Hw).
  destruct (init_given_names "localhost" 27017 "local" "students" w) as [Hout _];
    [done|done|].
  exists cs, ls.
  destruct (MyMongodb.__init__ "localhost" 27017 (Some "local") (Some "students") w)
    as [r w1].
  cbn [fst snd] in *. by subst.
Qed.

Lemma insert_students w :
  MyMongodb.insert mydb [student1; student2] false w =
  (Returned (),
   add_log (inserted_call students [student1; student2])
     (set_docs students (docs_of students w ++ [student1; student2])
        (add_call (CallInsertMany students [student1; student2] false) w))).
Proof. rewrite insert_run, students_distinct. done. Qed.

(** X27. The script at the end of the file runs to its end on any server:
    it appends the two students to the collection [students] of the database
    [local], touches no other collection, and leaves two cursors, the one
    [find_data] read and its sorted clone. *)
Theorem main_runs sw :
  (Ordered.main sw).1 = Returned () ∧
  docs_of students (plain (Ordered.main sw).2) =
    docs_of students (plain sw) ++ [student1; student2] ∧
  (∀ coll', coll' ≠ students →
     docs_of coll' (plain (Ordered.main sw).2) = docs_of coll' (plain sw)) ∧
  length (cursors (plain (Ordered.main sw).2)) = (length (cursors (plain sw)) + 2)%nat.
Proof.
  destruct (init_script (plain sw)) as (cs & ls & Hinit).
  unfold Ordered.main.
  erewrite sbind_returned by (apply lift_run; exact Hinit).
  erewrite sbind_returned by (apply lift_run; apply insert_students).
  erewrite sbind_returned by (apply lift_run; by apply find_data_returns).
  cbn [fst plain].
  set (w1 := World (server (plain sw)) (cursors (plain sw)) (calls (plain sw) ++ cs)
               (log (plain sw) ++ connected_call :: ls)).
  set (spent := Cursor (MyMongodb.collection mydb)
                  (find_data_filter "name" (VStr "Jordan") None)
                  MyMongodb.default_limit_num MyMongodb.default_skip_num (Some [])).
  erewrite sbind_returned.
  2:{ apply (sort_data_run _ spent); [|done].
      cbn [plain cursors]. by apply list_lookup_middle. }
  cbn [fst snd plain cursors server mret spy_ret]. split_and!.
  - done.
  - change (docs_of students (set_docs students (docs_of students w1 ++ [student1; student2])
                                (add_call (CallInsertMany students [student1; student2] false) w1)) =
            docs_of students (plain sw) ++ [student1; student2]).
    by rewrite docs_of_set_docs.
  - intros coll' Hne.
    change (docs_of coll' (set_docs students (docs_of students w1 ++ [student1; student2])
                             (add_call (CallInsertMany students [student1; student2] false) w1)) =
            docs_of coll' (plain sw)).
    by rewrite docs_of_set_docs_ne.
  - rewrite !length_app. cbn. lia.
Qed.
